(** * The GCE instance task of kops ([upup/pkg/fi/cloudup/gcetasks/instance.go])

    A shallow embedding of the instance task: the scope alias table, the URL
    helpers, the desired/actual [Instance] shape with its reflective zero
    test, the mapping into the compute API payload, the operation poller and
    the live-backend render target, followed by the properties the
    specification states about them. *)

From Stdlib Require Import Ascii String ZArith Lia.
From stdpp Require Import base option list strings gmap fin_maps.

Set Default Proof Using "Type*".

(** ** Go values

    A Go pointer that is only read is its pointee or nil; a slice is nil or a
    list (a non-nil empty slice is not the zero value); a map is nil or a
    finite map. *)

Definition ptr (A : Type) : Type := option A.
Definition slice (A : Type) : Type := option (list A).
Definition gomap (V : Type) : Type := option (gmap string V).

(** The elements of a slice; a nil slice has none. *)
Definition elems {A} (s : slice A) : list A := default [] s.

(** [append(s, x)]: the result is never nil. *)
Definition append {A} (s : slice A) (x : A) : slice A := Some (elems s ++ [x]).

(** [for k, v := range m]: the order in which the Go runtime walks a map is
    unspecified; the embedding takes it as an arbitrary enumeration of the
    map's entries. *)
Class MapRange := {
  map_range : ∀ {V : Type}, gmap string V → list (string * V);
  map_range_perm : ∀ {V : Type} (m : gmap string V), map_range m ≡ₚ map_to_list m
}.

(** Ranging over a nil map runs the body zero times. *)
Definition range `{MapRange} {V} (m : gomap V) : list (string * V) :=
  match m with
  | None => []
  | Some m => map_range m
  end.

(** ** Strings *)

Definition slash : ascii := "/"%char.

(** [strings.Split(s, "/")] *)
Fixpoint Split (s : string) : list string :=
  match s with
  | EmptyString => [EmptyString]
  | String c s' =>
      if Ascii.eqb c slash then EmptyString :: Split s'
      else match Split s' with
           | t :: ts => String c t :: ts
           | [] => [String c EmptyString]
           end
  end.

Fixpoint slash_free (s : string) : bool :=
  match s with
  | EmptyString => true
  | String c s' => negb (Ascii.eqb c slash) && slash_free s'
  end.

(** [strings.HasPrefix] and the rest after the prefix. *)
Fixpoint TrimPrefix (pre s : string) : option string :=
  match pre, s with
  | EmptyString, _ => Some s
  | String a pre', String b s' => if Ascii.eqb a b then TrimPrefix pre' s' else None
  | String _ _, EmptyString => None
  end.

(** ** Scope aliases *)

Definition scope_table : list (string * string) :=
  [ ("storage-ro",       "https://www.googleapis.com/auth/devstorage.read_only");
    ("storage-rw",       "https://www.googleapis.com/auth/devstorage.read_write");
    ("compute-ro",       "https://www.googleapis.com/auth/compute.read_only");
    ("compute-rw",       "https://www.googleapis.com/auth/compute");
    ("monitoring",       "https://www.googleapis.com/auth/monitoring");
    ("monitoring-write", "https://www.googleapis.com/auth/monitoring.write");
    ("logging-write",    "https://www.googleapis.com/auth/logging.write") ].

(** The table [init] builds. *)
Definition scopeAliases : gmap string string := list_to_map scope_table.

Definition expandScopeAlias (s : string) : string :=
  if String.eqb s "storage-ro" then "https://www.googleapis.com/auth/devstorage.read_only"
  else if String.eqb s "storage-rw" then "https://www.googleapis.com/auth/devstorage.read_write"
  else if String.eqb s "compute-ro" then "https://www.googleapis.com/auth/compute.read_only"
  else if String.eqb s "compute-rw" then "https://www.googleapis.com/auth/compute"
  else if String.eqb s "monitoring" then "https://www.googleapis.com/auth/monitoring"
  else if String.eqb s "monitoring-write" then "https://www.googleapis.com/auth/monitoring.write"
  else if String.eqb s "logging-write" then "https://www.googleapis.com/auth/logging.write"
  else s.

Definition scopeToLongForm (s : string) : string :=
  match scopeAliases !! s with
  | Some e => e
  | None => s
  end.

(** The loop of [scopeToShortForm] over the entries in the order they are
    ranged: the first entry whose value is [s] decides. *)
Fixpoint first_key_of (s : string) (entries : list (string * string)) : option string :=
  match entries with
  | [] => None
  | (k, v) :: rest => if String.eqb v s then Some k else first_key_of s rest
  end.

Definition scopeToShortForm `{MapRange} (s : string) : string :=
  default s (first_key_of s (map_range scopeAliases)).

(** The 7 aliases and the 7 URIs of the table. *)
Definition aliases : list string := scope_table.*1.
Definition uris : list string := scope_table.*2.

(** ** The sibling tasks an instance refers to

    Only the fields that [instance.go] reads are kept. *)

Module Network.
Record t := { Name : ptr string }.
End Network.

Module Subnet.
Record t := { Name : ptr string }.
End Subnet.

Module IPAddress.
Record t := { Name : ptr string; Address : ptr string }.
End IPAddress.

Module PersistentDisk.
Record t := { Name : ptr string }.
End PersistentDisk.

(** ** What the task takes from the rest of the program

    [fi.Resource] is an interface, the errors of the API client are opaque
    values, [gce.IsNotFound] inspects them, and the sibling tasks build
    their own URLs; none of these is declared in this file of the
    repository, so the embedding is parameterised by them. The URL methods
    have pointer receivers and are called without a nil test, so they take
    the pointer and may panic. *)
Class Externals := {
  (** the dynamic values behind [fi.Resource] *)
  Resource : Type;
  (** [reflect.DeepEqual] on two resources *)
  Resource_DeepEqual : Resource → Resource → bool;
  (** errors that the API client and [fi] hand back *)
  api_error : Type;
  (** [gce.IsNotFound] *)
  IsNotFound : api_error → bool;
  (** [fi.ResourceAsString] *)
  ResourceAsString : Resource → api_error + string;
  (** [fi.NewStringResource] *)
  NewStringResource : string → Resource;
  (** the [URL] methods of [Network] and [PersistentDisk]: a URL, or [None]
      when the method dereferences a nil pointer *)
  Network_URL : ptr Network.t → string → option string;
  PersistentDisk_URL : ptr PersistentDisk.t → string → option string
}.

(** ** The task *)

Module Instance.
Record t `{Externals} := {
    Name : ptr string;
    Network : ptr Network.t;
    Tags : slice string;
    Preemptible : ptr bool;
    Image : ptr string;
    Disks : gomap (ptr PersistentDisk.t);
    CanIPForward : ptr bool;
    IPAddress : ptr IPAddress.t;
    Subnet : ptr Subnet.t;
    Scopes : slice string;
    Metadata : gomap Resource;
    Zone : ptr string;
    MachineType : ptr string;
    metadataFingerprint : string
  }.

  (** [&Instance{}] *)
Definition zero `{Externals} : t :=
    {| Name := None; Network := None; Tags := None; Preemptible := None;
       Image := None; Disks := None; CanIPForward := None; IPAddress := None;
       Subnet := None; Scopes := None; Metadata := None; Zone := None;
       MachineType := None; metadataFingerprint := "" |}.

  (** [i.Metadata = m] *)
Definition set_Metadata `{Externals} (m : gomap Resource) (i : t) : t :=
    {| Name := Name i; Network := Network i; Tags := Tags i;
       Preemptible := Preemptible i; Image := Image i; Disks := Disks i;
       CanIPForward := CanIPForward i; IPAddress := IPAddress i;
       Subnet := Subnet i; Scopes := Scopes i; Metadata := m; Zone := Zone i;
       MachineType := MachineType i;
       metadataFingerprint := metadataFingerprint i |}.

(** [i.Name = v] *)
Definition set_Name `{Externals} (v : ptr string) (i : t) : t :=
    {| Name := v; Network := Network i; Tags := Tags i; Preemptible := Preemptible i;
       Image := Image i; Disks := Disks i; CanIPForward := CanIPForward i;
       IPAddress := IPAddress i; Subnet := Subnet i; Scopes := Scopes i;
       Metadata := Metadata i; Zone := Zone i; MachineType := MachineType i;
       metadataFingerprint := metadataFingerprint i |}.

(** [i.Network = v] *)
Definition set_Network `{Externals} (v : ptr Network.t) (i : t) : t :=
    {| Name := Name i; Network := v; Tags := Tags i; Preemptible := Preemptible i;
       Image := Image i; Disks := Disks i; CanIPForward := CanIPForward i;
       IPAddress := IPAddress i; Subnet := Subnet i; Scopes := Scopes i;
       Metadata := Metadata i; Zone := Zone i; MachineType := MachineType i;
       metadataFingerprint := metadataFingerprint i |}.

(** [i.Subnet = v] *)
Definition set_Subnet `{Externals} (v : ptr Subnet.t) (i : t) : t :=
    {| Name := Name i; Network := Network i; Tags := Tags i; Preemptible := Preemptible i;
       Image := Image i; Disks := Disks i; CanIPForward := CanIPForward i;
       IPAddress := IPAddress i; Subnet := v; Scopes := Scopes i; Metadata := Metadata i;
       Zone := Zone i; MachineType := MachineType i;
       metadataFingerprint := metadataFingerprint i |}.

(** [i.CanIPForward = v] *)
Definition set_CanIPForward `{Externals} (v : ptr bool) (i : t) : t :=
    {| Name := Name i; Network := Network i; Tags := Tags i; Preemptible := Preemptible i;
       Image := Image i; Disks := Disks i; CanIPForward := v; IPAddress := IPAddress i;
       Subnet := Subnet i; Scopes := Scopes i; Metadata := Metadata i; Zone := Zone i;
       MachineType := MachineType i; metadataFingerprint := metadataFingerprint i |}.

(** [i.MachineType = v] *)
Definition set_MachineType `{Externals} (v : ptr string) (i : t) : t :=
    {| Name := Name i; Network := Network i; Tags := Tags i; Preemptible := Preemptible i;
       Image := Image i; Disks := Disks i; CanIPForward := CanIPForward i;
       IPAddress := IPAddress i; Subnet := Subnet i; Scopes := Scopes i;
       Metadata := Metadata i; Zone := Zone i; MachineType := v;
       metadataFingerprint := metadataFingerprint i |}.
End Instance.

(** ** Errors

    [fmt.Errorf] and [glog.Exitf] are kept as their format string and
    arguments. *)

Inductive error `{Externals} : Type :=
| ApiError (e : api_error)
| Errorf (format : string) (args : list fmt_arg)
with fmt_arg `{Externals} : Type :=
| ArgString (s : string)
| ArgError (e : option error)
| ArgInstance (i : Instance.t).

(** ** Outcomes

    What a call does: it returns a value with a nil error ([Ret]), returns an
    error ([Fail]), panics at run time (nil dereference, index out of
    range), leaves the process through [glog.Exitf], or is a poll loop still
    running when the fuel of the model is spent. *)

Inductive outcome `{Externals} (A : Type) : Type :=
| Ret (a : A)
| Fail (err : error)
| Panic (why : string)
| Exit (format : string) (args : list string)
| Running.
Arguments Ret {_ A} a.
Arguments Fail {_ A} err.
Arguments Panic {_ A} why.
Arguments Exit {_ A} format args.
Arguments Running {_ A}.

#[global] Instance outcome_ret `{Externals} : MRet outcome := λ A a, Ret a.
#[global] Instance outcome_bind `{Externals} : MBind outcome := λ A B f m,
  match m with
  | Ret a => f a
  | Fail err => Fail err
  | Panic why => Panic why
  | Exit format args => Exit format args
  | Running => Running
  end.

(** [if err != nil { return fmt.Errorf(...) }] around a call. *)
Definition on_error `{Externals} {A} (m : outcome A) (wrap : error → error) : outcome A :=
  match m with
  | Fail err => Fail (wrap err)
  | other => other
  end.

(** A call into external code that returns a value or an error. *)
Definition api `{Externals} {A} (r : api_error + A) : outcome A :=
  match r with
  | inl e => Fail (ApiError e)
  | inr a => Ret a
  end.

Definition nil_dereference : string := "invalid memory address or nil pointer dereference".
Definition index_out_of_range : string := "index out of range".

(** [*p] *)
Definition deref `{Externals} {A} (p : ptr A) : outcome A :=
  match p with
  | Some a => Ret a
  | None => Panic nil_dereference
  end.

(** A loop body run over a list, left to right. *)
Fixpoint foldlM `{Externals} {A B} (f : A → B → outcome A) (a : A) (l : list B) : outcome A :=
  match l with
  | [] => Ret a
  | b :: l' => a' ← f a b; foldlM f a' l'
  end.

(** The call comes back to its caller, with a value or with an error. *)
Definition returns `{Externals} {A} (m : outcome A) : Prop :=
  match m with
  | Ret _ | Fail _ => True
  | _ => False
  end.

(** [fi.BoolValue], [fi.String] *)
Definition BoolValue (b : ptr bool) : bool := default false b.
Definition String_ (s : string) : ptr string := Some s.

(** ** The compute API payloads (package [compute]) *)

Module compute.
Module Scheduling.
Record t := { AutomaticRestart : bool; OnHostMaintenance : string; Preemptible : bool }.
End Scheduling.

Module AttachedDiskInitializeParams.
Record t := { SourceImage : string }.
End AttachedDiskInitializeParams.

Module AttachedDisk.
Record t := {
      InitializeParams : ptr AttachedDiskInitializeParams.t;
      Boot : bool;
      DeviceName : string;
      Index : Z;
      AutoDelete : bool;
      Mode : string;
      Type_ : string;
      Source : string
    }.
End AttachedDisk.

Module Tags.
Record t := { Items : slice string }.
End Tags.

Module AccessConfig.
Record t := { NatIP : string; Type_ : string }.
End AccessConfig.

Module NetworkInterface.
Record t := {
      AccessConfigs : slice AccessConfig.t;
      Network : string;
      Subnetwork : string
    }.
End NetworkInterface.

Module ServiceAccount.
Record t := { Email : string; Scopes : slice string }.
End ServiceAccount.

Module MetadataItems.
Record t := { Key : string; Value : ptr string }.
End MetadataItems.

Module Metadata.
Record t := { Items : slice MetadataItems.t; Fingerprint : string }.
End Metadata.

Module Instance.
Record t := {
      CanIpForward : bool;
      Disks : slice AttachedDisk.t;
      MachineType : string;
      Metadata : ptr Metadata.t;
      Name : string;
      NetworkInterfaces : slice NetworkInterface.t;
      Scheduling : ptr Scheduling.t;
      ServiceAccounts : slice ServiceAccount.t;
      Tags : ptr Tags.t;
      Zone : string
    }.
End Instance.

Module OperationErrorErrors.
Record t := { Message : string }.
End OperationErrorErrors.

Module OperationError.
Record t := { Errors : slice OperationErrorErrors.t }.
End OperationError.

Module Operation.
Record t := {
      Name : string;
      Zone : string;
      Status : string;
      Error : ptr OperationError.t;
      Warnings : slice string
    }.
End Operation.

Module Disk.
Record t := { SourceImage : string }.
End Disk.

Module Address.
Record t := { Name : string }.
End Address.

Module AddressList.
Record t := { Items : slice Address.t }.
End AddressList.
End compute.

(** ** Identifier utilities *)

Definition BuildMachineTypeURL (project zone name : string) : string :=
  "https://www.googleapis.com/compute/v1/projects/" +:+ project +:+ "/zones/" +:+ zone
    +:+ "/machineTypes/" +:+ name.

Definition BuildImageURL `{Externals} (defaultProject nameSpec : string) : outcome string :=
  let tokens := Split nameSpec in
  '(project, name) ←
    match tokens with
    | [t0; t1] => Ret (t0, t1)
    | [t0] => Ret (defaultProject, t0)
    | _ => Exit "Cannot parse image spec: %q" [nameSpec]
    end;
  Ret ("https://www.googleapis.com/compute/v1/projects/" +:+ project +:+ "/global/images/" +:+ name).

Module GoogleCloudURL.
Record t := { Project : string; Name : string }.
End GoogleCloudURL.

(** Modelled from the spec: [gce.ParseGoogleCloudURL] is not in this file of
    the repository. The specification has it parse a canonical resource URL
    into its project and name; the canonical URLs are the two shapes that
    [BuildMachineTypeURL] and [BuildImageURL] produce, a zonal resource
    [projects/P/zones/Z/TYPE/NAME] and a global one
    [projects/P/global/TYPE/NAME], and anything else is a parse error. *)
Definition ParseGoogleCloudURL `{Externals} (u : string) : outcome GoogleCloudURL.t :=
  let invalid := Fail (Errorf "invalid google cloud URL: %q" [ArgString u]) in
  match TrimPrefix "https://www.googleapis.com/compute/v1/" u with
  | None => invalid
  | Some rest =>
      match Split rest with
      | [t0; project; t2; _; name] =>
          if String.eqb t0 "projects" && String.eqb t2 "global"
          then Ret {| GoogleCloudURL.Project := project; GoogleCloudURL.Name := name |}
          else invalid
      | [t0; project; t2; _; _; name] =>
          if String.eqb t0 "projects" && String.eqb t2 "zones"
          then Ret {| GoogleCloudURL.Project := project; GoogleCloudURL.Name := name |}
          else invalid
      | _ => invalid
      end
  end.

(** Modelled from the spec: [lastComponent] is declared in another file of
    the package; the specification has it take the last path component of a
    URL. *)
Definition lastComponent (s : string) : string := List.last (Split s) s.

Definition ShortenImageURL `{Externals} (defaultProject imageURL : string) : outcome string :=
  u ← ParseGoogleCloudURL imageURL;
  if String.eqb (GoogleCloudURL.Project u) defaultProject
  then Ret (GoogleCloudURL.Name u)
  else Ret (GoogleCloudURL.Project u +:+ "/" +:+ GoogleCloudURL.Name u).

(** ** [reflect.DeepEqual] at the types of the task

    Pointers are deeply equal when both are nil or their pointees are deeply
    equal; slices when both are nil or both are non-nil with deeply equal
    elements at each index; maps when both are nil or both are non-nil with
    the same length and deeply equal values under each key; structs field
    by field. *)

Definition DeepEqual_ptr {A} (eq : A → A → bool) (x y : ptr A) : bool :=
  match x, y with
  | None, None => true
  | Some a, Some b => eq a b
  | _, _ => false
  end.

Fixpoint DeepEqual_elems {A} (eq : A → A → bool) (l1 l2 : list A) : bool :=
  match l1, l2 with
  | [], [] => true
  | a :: l1', b :: l2' => eq a b && DeepEqual_elems eq l1' l2'
  | _, _ => false
  end.

Definition DeepEqual_slice {A} (eq : A → A → bool) (x y : slice A) : bool :=
  DeepEqual_ptr (DeepEqual_elems eq) x y.

Definition DeepEqual_map {V} (eq : V → V → bool) (x y : gomap V) : bool :=
  match x, y with
  | None, None => true
  | Some m1, Some m2 =>
      bool_decide (size m1 = size m2)
      && forallb (λ '(k, v1), match m2 !! k with
                              | Some v2 => eq v1 v2
                              | None => false
                              end) (map_to_list m1)
  | _, _ => false
  end.

Definition DeepEqual_Network (x y : Network.t) : bool :=
  DeepEqual_ptr String.eqb (Network.Name x) (Network.Name y).

Definition DeepEqual_Subnet (x y : Subnet.t) : bool :=
  DeepEqual_ptr String.eqb (Subnet.Name x) (Subnet.Name y).

Definition DeepEqual_IPAddress (x y : IPAddress.t) : bool :=
  DeepEqual_ptr String.eqb (IPAddress.Name x) (IPAddress.Name y)
  && DeepEqual_ptr String.eqb (IPAddress.Address x) (IPAddress.Address y).

Definition DeepEqual_PersistentDisk (x y : PersistentDisk.t) : bool :=
  DeepEqual_ptr String.eqb (PersistentDisk.Name x) (PersistentDisk.Name y).

Definition DeepEqual_Instance `{Externals} (x y : Instance.t) : bool :=
  DeepEqual_ptr String.eqb (Instance.Name x) (Instance.Name y)
  && DeepEqual_ptr DeepEqual_Network (Instance.Network x) (Instance.Network y)
  && DeepEqual_slice String.eqb (Instance.Tags x) (Instance.Tags y)
  && DeepEqual_ptr Bool.eqb (Instance.Preemptible x) (Instance.Preemptible y)
  && DeepEqual_ptr String.eqb (Instance.Image x) (Instance.Image y)
  && DeepEqual_map (DeepEqual_ptr DeepEqual_PersistentDisk) (Instance.Disks x) (Instance.Disks y)
  && DeepEqual_ptr Bool.eqb (Instance.CanIPForward x) (Instance.CanIPForward y)
  && DeepEqual_ptr DeepEqual_IPAddress (Instance.IPAddress x) (Instance.IPAddress y)
  && DeepEqual_ptr DeepEqual_Subnet (Instance.Subnet x) (Instance.Subnet y)
  && DeepEqual_slice String.eqb (Instance.Scopes x) (Instance.Scopes y)
  && DeepEqual_map Resource_DeepEqual (Instance.Metadata x) (Instance.Metadata y)
  && DeepEqual_ptr String.eqb (Instance.Zone x) (Instance.Zone y)
  && DeepEqual_ptr String.eqb (Instance.MachineType x) (Instance.MachineType y)
  && String.eqb (Instance.metadataFingerprint x) (Instance.metadataFingerprint y).

Definition isZero `{Externals} (i : Instance.t) : bool :=
  let zero := Instance.zero in
  DeepEqual_Instance zero i.

(** ** Mapping the task into the API payload *)

(** A URL method of a sibling task, called on a pointer that may be nil. *)
Definition url_call `{Externals} (r : option string) : outcome string :=
  match r with
  | Some u => Ret u
  | None => Panic nil_dereference
  end.

Definition mapToGCE `{Externals} `{MapRange} (e : Instance.t) (project : string)
    (ipAddressResolver : IPAddress.t → outcome (ptr string))
  : outcome compute.Instance.t :=
  zone ← deref (Instance.Zone e);
  let scheduling :=
    if BoolValue (Instance.Preemptible e)
    then {| compute.Scheduling.AutomaticRestart := false;
            compute.Scheduling.OnHostMaintenance := "TERMINATE";
            compute.Scheduling.Preemptible := true |}
    else {| compute.Scheduling.AutomaticRestart := true;
            compute.Scheduling.OnHostMaintenance := "MIGRATE";
            compute.Scheduling.Preemptible := false |} in
  image ← deref (Instance.Image e);
  sourceImage ← BuildImageURL project image;
  let disks : slice compute.AttachedDisk.t :=
    append None
      {| compute.AttachedDisk.InitializeParams :=
           Some {| compute.AttachedDiskInitializeParams.SourceImage := sourceImage |};
         compute.AttachedDisk.Boot := true;
         compute.AttachedDisk.DeviceName := "persistent-disks-0";
         compute.AttachedDisk.Index := 0;
         compute.AttachedDisk.AutoDelete := true;
         compute.AttachedDisk.Mode := "READ_WRITE";
         compute.AttachedDisk.Type_ := "PERSISTENT";
         compute.AttachedDisk.Source := "" |} in
  disks ← foldlM (λ disks '(name, disk),
             source ← url_call (PersistentDisk_URL disk project);
             Ret (append disks
               {| compute.AttachedDisk.InitializeParams := None;
                  compute.AttachedDisk.Boot := false;
                  compute.AttachedDisk.DeviceName := name;
                  compute.AttachedDisk.Index := 0;
                  compute.AttachedDisk.AutoDelete := false;
                  compute.AttachedDisk.Mode := "READ_WRITE";
                  compute.AttachedDisk.Type_ := "";
                  compute.AttachedDisk.Source := source |}))
           disks (range (Instance.Disks e));
  let tags : ptr compute.Tags.t :=
    match Instance.Tags e with
    | Some items => Some {| compute.Tags.Items := Some items |}
    | None => None
    end in
  networkInterfaces ←
    match Instance.IPAddress e with
    | Some ip =>
        addr ← on_error (ipAddressResolver ip)
                 (λ err, Errorf "unable to resolve IP for instance: %v" [ArgError (Some err)]);
        match addr with
        | None => Fail (Errorf "instance IP address has not yet been created" [])
        | Some natIP =>
            network ← url_call (Network_URL (Instance.Network e) project);
            subnetwork ←
              match Instance.Subnet e with
              | Some subnet => deref (Subnet.Name subnet)
              | None => Ret ""
              end;
            Ret (append None
              {| compute.NetworkInterface.AccessConfigs :=
                   Some [ {| compute.AccessConfig.NatIP := natIP;
                             compute.AccessConfig.Type_ := "ONE_TO_ONE_NAT" |} ];
                 compute.NetworkInterface.Network := network;
                 compute.NetworkInterface.Subnetwork := subnetwork |})
        end
    | None => Ret None
    end;
  let serviceAccounts : slice compute.ServiceAccount.t :=
    match Instance.Scopes e with
    | Some ss =>
        let scopes := foldl (λ scopes s, append scopes (expandScopeAlias s)) None ss in
        append None {| compute.ServiceAccount.Email := "default";
                       compute.ServiceAccount.Scopes := scopes |}
    | None => None
    end in
  metadataItems ← foldlM (λ metadataItems '(key, r),
                     v ← on_error (api (ResourceAsString r))
                           (λ err, Errorf "error rendering Instance metadata %q: %v"
                                     [ArgString key; ArgError (Some err)]);
                     Ret (append metadataItems
                       {| compute.MetadataItems.Key := key;
                          compute.MetadataItems.Value := String_ v |}))
                   None (range (Instance.Metadata e));
  canIpForward ← deref (Instance.CanIPForward e);
  machineType ← deref (Instance.MachineType e);
  name ← deref (Instance.Name e);
  Ret {| compute.Instance.CanIpForward := canIpForward;
         compute.Instance.Disks := disks;
         compute.Instance.MachineType := BuildMachineTypeURL project zone machineType;
         compute.Instance.Metadata :=
           Some {| compute.Metadata.Items := metadataItems;
                   compute.Metadata.Fingerprint := "" |};
         compute.Instance.Name := name;
         compute.Instance.NetworkInterfaces := networkInterfaces;
         compute.Instance.Scheduling := Some scheduling;
         compute.Instance.ServiceAccounts := serviceAccounts;
         compute.Instance.Tags := tags;
         compute.Instance.Zone := "" |}.

(** The resolver of the live target: [return ip.Address, nil]. *)
Definition gce_ipAddressResolver `{Externals} (ip : IPAddress.t) : outcome (ptr string) :=
  Ret (IPAddress.Address ip).

(** The resolver of the template target: a reference expression built from
    [*ip.Name]. *)
Definition terraform_ipAddressResolver `{Externals} (ip : IPAddress.t) : outcome (ptr string) :=
  name ← deref (IPAddress.Name ip);
  Ret (Some ("${google_compute_address." +:+ name +:+ ".address}")).

(** ** The backend

    The task talks to the compute service through six calls. The service is
    any state type with these operations; every call may change the state,
    and so does the passing of time during [time.Sleep]. The store also
    keeps the calls issued so far, oldest first, and the diff object that
    [RenderGCE] mutates through its [changes] pointer. *)

Inductive Call : Type :=
| InstancesGet (project zone name : string)
| InstancesInsert (project zone : string) (i : compute.Instance.t)
| InstancesSetMetadata (project zone instance : string) (m : compute.Metadata.t)
| ZoneOperationsGet (project zone operation : string)
| DisksGet (project zone name : string)
| AddressesList (project region filter : string)
| Sleep (seconds : Z).

Class ComputeService `{Externals} (B : Type) := {
  Instances_Get : string → string → string → B → (api_error + compute.Instance.t) * B;
  Instances_Insert : string → string → compute.Instance.t → B → (api_error + compute.Operation.t) * B;
  Instances_SetMetadata :
    string → string → string → compute.Metadata.t → B → (api_error + compute.Operation.t) * B;
  ZoneOperations_Get : string → string → string → B → (api_error + compute.Operation.t) * B;
  Disks_Get : string → string → string → B → (api_error + compute.Disk.t) * B;
  Addresses_List : string → string → string → B → (api_error + compute.AddressList.t) * B;
  time_Sleep : Z → B → B
}.

Module GCECloud.
Record t := { Project : string; Region : string }.
End GCECloud.

Module World.
Record t `{Externals} {B : Type} := {
  backend : B;
  calls : list Call;
  changes : Instance.t
}.
Arguments t {_} B.
End World.

Record action `{Externals} (B A : Type) : Type :=
  Action { run : World.t B → outcome A * World.t B }.
Arguments Action {_ B A} _.
Arguments run {_ B A} _ _.

#[global] Instance action_ret `{Externals} {B} : MRet (action B) :=
  λ A a, Action (λ w, (Ret a, w)).
#[global] Instance action_bind `{Externals} {B} : MBind (action B) := λ A C f m,
  Action (λ w,
    match run m w with
    | (Ret a, w') => run (f a) w'
    | (Fail err, w') => (Fail err, w')
    | (Panic why, w') => (Panic why, w')
    | (Exit format args, w') => (Exit format args, w')
    | (Running, w') => (Running, w')
    end).

(** A step without effect on the store. *)
Definition lift `{Externals} {B A} (m : outcome A) : action B A := Action (λ w, (m, w)).

(** One call to the service: the state moves and the call is recorded. *)
Definition call `{Externals} {B A} (c : Call) (f : B → A * B) : action B A :=
  Action (λ w,
    let '(r, b') := f (World.backend w) in
    (Ret r, {| World.backend := b'; World.calls := World.calls w ++ [c];
               World.changes := World.changes w |})).

Definition get_changes `{Externals} {B} : action B Instance.t :=
  Action (λ w, (Ret (World.changes w), w)).

Definition put_changes `{Externals} {B} (c : Instance.t) : action B unit :=
  Action (λ w, (Ret tt, {| World.backend := World.backend w; World.calls := World.calls w;
                           World.changes := c |})).

(** [if err != nil { return fmt.Errorf(...) }] around an action. *)
Definition on_error_a `{Externals} {B A} (m : action B A) (wrap : error → error) : action B A :=
  Action (λ w, let '(r, w') := run m w in (on_error r wrap, w')).

(** ** The operation poller

    The operation handle and the status that a successful query returns are
    taken as non-nil. *)

(** The [for] loop of [waitCompletion]: [fuel] bounds the number of status
    queries of the model, the loop itself has no bound. *)
Fixpoint poll `{Externals} {B} `{!ComputeService B} (fuel : nat) (project zone name : string)
  : action B compute.Operation.t :=
  match fuel with
  | O => lift Running
  | S fuel' =>
      r ← call (ZoneOperationsGet project zone name) (ZoneOperations_Get project zone name);
      match r with
      | inl err =>
          lift (Fail (Errorf "error fetching operation status: %v" [ArgError (Some (ApiError err))]))
      | inr status =>
          let done := String.eqb (compute.Operation.Status status) "DONE" in
          if done then mret status
          else
            _ ← call (Sleep 1) (λ b, (tt, time_Sleep 1 b));
            poll fuel' project zone name
      end
  end.

Definition waitCompletion `{Externals} {B} `{!ComputeService B} (fuel : nat) (project : string)
    (op : compute.Operation.t) : action B unit :=
  let zone := lastComponent (compute.Operation.Zone op) in
  status ← poll fuel project zone (compute.Operation.Name op);
  match compute.Operation.Error status with
  | Some operr =>
      match elems (compute.OperationError.Errors operr) with
      | e0 :: _ =>
          lift (Fail (Errorf "operation failed: %v" [ArgString (compute.OperationErrorErrors.Message e0)]))
      | [] => lift (Panic index_out_of_range)
      end
  | None => mret tt
  end.

(** ** The live render target *)

Definition RenderGCE `{Externals} `{MapRange} {B} `{!ComputeService B} (fuel : nat)
    (t : GCECloud.t) (a : ptr Instance.t) (e : Instance.t) : action B unit :=
  let project := GCECloud.Project t in
  zone ← lift (deref (Instance.Zone e));
  i ← lift (mapToGCE e project gce_ipAddressResolver);
  match a with
  | None =>
      r ← call (InstancesInsert project zone i) (Instances_Insert project zone i);
      match r with
      | inl err => lift (Fail (Errorf "error creating Instance: %v" [ArgError (Some (ApiError err))]))
      | inr _ => mret tt
      end
  | Some a =>
      changes ← get_changes;
      _ ← match Instance.Metadata changes with
          | Some _ =>
              m ← lift (deref (compute.Instance.Metadata i));
              let metadata :=
                {| compute.Metadata.Items := compute.Metadata.Items m;
                   compute.Metadata.Fingerprint := Instance.metadataFingerprint a |} in
              r ← call (InstancesSetMetadata project zone (compute.Instance.Name i) metadata)
                       (Instances_SetMetadata project zone (compute.Instance.Name i) metadata);
              match r with
              | inl err =>
                  lift (Fail (Errorf "error setting metadata on instance: %v"
                                [ArgError (Some (ApiError err))]))
              | inr op =>
                  _ ← on_error_a (waitCompletion fuel project op)
                        (λ err, Errorf "error setting metadata on instance: %v" [ArgError (Some err)]);
                  put_changes (Instance.set_Metadata None changes)
              end
          | None => mret tt
          end;
      changes ← get_changes;
      if negb (isZero changes)
      then lift (Fail (Errorf "Cannot apply changes to Instance: %v" [ArgInstance changes]))
      else mret tt
  end.

(** ** Reading the live state *)

(** The first network interface of the response: the network it names and,
    when its first access config has a NAT address, the address task found
    by filtering the address list. *)
Definition find_network `{Externals} {B} `{!ComputeService B} (cloud : GCECloud.t)
    (nis : list compute.NetworkInterface.t)
  : action B (ptr Network.t * ptr IPAddress.t) :=
  match nis with
  | [] => mret (None, None)
  | ni :: _ =>
      let network := Some {| Network.Name := String_ (lastComponent (compute.NetworkInterface.Network ni)) |} in
      match elems (compute.NetworkInterface.AccessConfigs ni) with
      | [] => mret (network, None)
      | ac :: _ =>
          let natIP := compute.AccessConfig.NatIP ac in
          if String.eqb natIP "" then mret (network, None)
          else
            let filter := "address eq " +:+ natIP in
            r ← call (AddressesList (GCECloud.Project cloud) (GCECloud.Region cloud) filter)
                     (Addresses_List (GCECloud.Project cloud) (GCECloud.Region cloud) filter);
            match r with
            | inl err =>
                lift (Fail (Errorf "error querying for address %q: %v"
                              [ArgString natIP; ArgError (Some (ApiError err))]))
            | inr addr =>
                match elems (compute.AddressList.Items addr) with
                | a0 :: _ =>
                    mret (network,
                          Some {| IPAddress.Name := Some (compute.Address.Name a0);
                                  IPAddress.Address := None |})
                | [] =>
                    lift (Fail (Errorf "address not found %q: %v" [ArgString natIP; ArgError None]))
                end
            end
      end
  end.

(** The boot disk of the response (index 0): its source image, shortened. *)
Definition find_boot_image `{Externals} {B} `{!ComputeService B} (cloud : GCECloud.t)
    (e : Instance.t) (disk : compute.AttachedDisk.t) : action B string :=
  let source := compute.AttachedDisk.Source disk in
  let name := lastComponent source in
  zone ← lift (deref (Instance.Zone e));
  r ← call (DisksGet (GCECloud.Project cloud) zone name)
           (Disks_Get (GCECloud.Project cloud) zone name);
  match r with
  | inl err =>
      if IsNotFound err
      then lift (Fail (Errorf "disk not found %q: %v" [ArgString source; ArgError (Some (ApiError err))]))
      else lift (Fail (Errorf "error querying for disk %q: %v"
                         [ArgString source; ArgError (Some (ApiError err))]))
  | inr d =>
      lift (on_error (ShortenImageURL (GCECloud.Project cloud) (compute.Disk.SourceImage d))
              (λ err, Errorf "error parsing source image URL: %v" [ArgError (Some err)]))
  end.

(** The disks of the response after the first: one entry of the [Disks] map
    each, under the device name. *)
Fixpoint find_data_disks `{Externals} (disks : list compute.AttachedDisk.t)
    (acc : gmap string (ptr PersistentDisk.t)) : outcome (gmap string (ptr PersistentDisk.t)) :=
  match disks with
  | [] => Ret acc
  | disk :: rest =>
      url ← on_error (ParseGoogleCloudURL (compute.AttachedDisk.Source disk))
              (λ _, Errorf "unable to parse disk source URL: %q"
                      [ArgString (compute.AttachedDisk.Source disk)]);
      find_data_disks rest
        (<[compute.AttachedDisk.DeviceName disk :=
             Some {| PersistentDisk.Name := Some (GoogleCloudURL.Name url) |}]> acc)
  end.

(** The metadata items of the response, entries with a nil value skipped. *)
Definition find_metadata `{Externals} (items : list compute.MetadataItems.t) : gmap string Resource :=
  foldl (λ acc i,
           match compute.MetadataItems.Value i with
           | None => acc
           | Some v => <[compute.MetadataItems.Key i := NewStringResource v]> acc
           end) ∅ items.

Definition Find `{Externals} `{MapRange} {B} `{!ComputeService B} (e : Instance.t) (cloud : GCECloud.t)
  : action B (ptr Instance.t) :=
  let project := GCECloud.Project cloud in
  zone ← lift (deref (Instance.Zone e));
  name ← lift (deref (Instance.Name e));
  r ← call (InstancesGet project zone name) (Instances_Get project zone name);
  match r with
  | inl err =>
      if IsNotFound err then mret None
      else lift (Fail (Errorf "error listing Instances: %v" [ArgError (Some (ApiError err))]))
  | inr r =>
      rtags ← lift (deref (compute.Instance.Tags r));
      let tags := foldl append None (elems (compute.Tags.Items rtags)) in
      let preemptible :=
        match compute.Instance.Scheduling r with
        | Some s => Some (compute.Scheduling.Preemptible s)
        | None => None
        end in
      '(network, ipAddress) ← find_network cloud (elems (compute.Instance.NetworkInterfaces r));
      let scopes :=
        foldl (λ scopes serviceAccount,
                 foldl (λ scopes scope, append scopes (scopeToShortForm scope))
                       scopes (elems (compute.ServiceAccount.Scopes serviceAccount)))
              None (elems (compute.Instance.ServiceAccounts r)) in
      '(image, disks) ←
        match elems (compute.Instance.Disks r) with
        | [] => mret (None, ∅)
        | boot :: rest =>
            image ← find_boot_image cloud e boot;
            disks ← lift (find_data_disks rest ∅);
            mret (String_ image, disks)
        end;
      let '(metadata, fingerprint) :=
        match compute.Instance.Metadata r with
        | Some m => (Some (find_metadata (elems (compute.Metadata.Items m))),
                     compute.Metadata.Fingerprint m)
        | None => (None, "")
        end in
      mret (Some
        {| Instance.Name := Some (compute.Instance.Name r);
           Instance.Network := network;
           Instance.Tags := tags;
           Instance.Preemptible := preemptible;
           Instance.Image := image;
           Instance.Disks := Some disks;
           Instance.CanIPForward := Some (compute.Instance.CanIpForward r);
           Instance.IPAddress := ipAddress;
           Instance.Subnet := None;
           Instance.Scopes := scopes;
           Instance.Metadata := metadata;
           Instance.Zone := String_ (lastComponent (compute.Instance.Zone r));
           Instance.MachineType := String_ (lastComponent (compute.Instance.MachineType r));
           Instance.metadataFingerprint := fingerprint |})
  end.

(** ** Runs of the poll loop *)

(** The answer to status query number [j] (counted from 0) of a poll loop
    that starts in backend state [b], and the state after it, when each
    earlier query was followed by the one-second sleep. *)
Fixpoint nth_poll `{Externals} {B} `{!ComputeService B} (project zone name : string)
    (j : nat) (b : B) : (api_error + compute.Operation.t) * B :=
  match j with
  | O => ZoneOperations_Get project zone name b
  | S j' => nth_poll project zone name j' (time_Sleep 1 (ZoneOperations_Get project zone name b).2)
  end.

(** The first [k] status queries are answered, each with a status other
    than ["DONE"]. *)
Definition pending_until `{Externals} {B} `{!ComputeService B} (project zone name : string)
    (k : nat) (b : B) : Prop :=
  ∀ j, j < k →
    ∃ st, (nth_poll project zone name j b).1 = inr st ∧ compute.Operation.Status st ≠ "DONE".

(** The calls of a poll loop that is answered ["DONE"] at query [k]. *)
Definition poll_calls (project zone name : string) (k : nat) : list Call :=
  mjoin (replicate k [ZoneOperationsGet project zone name; Sleep 1])
    ++ [ZoneOperationsGet project zone name].

(** The calls that change the backend: creating an instance and writing its
    metadata. *)
Definition is_update (c : Call) : bool :=
  match c with
  | InstancesInsert _ _ _ | InstancesSetMetadata _ _ _ _ => true
  | _ => false
  end.

Definition updates (cs : list Call) : list Call := List.filter is_update cs.

(** The fingerprint in a response of the instance get. *)
Definition response_fingerprint (r : compute.Instance.t) : string :=
  match compute.Instance.Metadata r with
  | Some m => compute.Metadata.Fingerprint m
  | None => ""
  end.

(** The metadata items of a mapped payload. *)
Definition payload_items (i : compute.Instance.t) : slice compute.MetadataItems.t :=
  match compute.Instance.Metadata i with
  | Some m => compute.Metadata.Items m
  | None => None
  end.

(** The keys of a Go map; a nil map has none. *)
Definition keys {V} (m : gomap V) : list string :=
  match m with
  | Some m => (map_to_list m).*1
  | None => []
  end.

(** ** Sample instances

    A concrete choice of the external pieces and a small scripted backend,
    on which the definitions above are run. *)

(** The runtime walks maps in the order of [map_to_list]. *)
Definition canonical_range : MapRange :=
  {| map_range := λ V m, map_to_list m;
     map_range_perm := λ V m, reflexivity (map_to_list m) |}.

(** Resources are literal strings, or [None] for a source that cannot be
    read; an API error is [true] when it is a not-found error. *)
Definition sample_externals : Externals :=
  {| Resource := option string;
     Resource_DeepEqual := DeepEqual_ptr String.eqb;
     api_error := bool;
     IsNotFound := λ e, e;
     ResourceAsString := λ r, match r with Some s => inr s | None => inl false end;
     NewStringResource := Some;
     Network_URL := λ n project,
       n' ← n; name ← Network.Name n';
       Some ("https://www.googleapis.com/compute/v1/projects/" +:+ project
               +:+ "/global/networks/" +:+ name);
     PersistentDisk_URL := λ d project,
       d' ← d; name ← PersistentDisk.Name d';
       Some ("https://www.googleapis.com/compute/v1/projects/" +:+ project
               +:+ "/zones/z/disks/" +:+ name) |}.

(** A scripted service: the instance get answers with [existing], or with a
    not-found error when there is none; an operation is reported running
    until [countdown] sleeps have passed; the last metadata written and the
    instances created are kept. *)
Module Scripted.
Record t := {
  existing : option compute.Instance.t;
  countdown : nat;
  final_error : ptr compute.OperationError.t;
  metadata : option compute.Metadata.t;
  created : list compute.Instance.t
}.

Definition operation (status : string) (err : ptr compute.OperationError.t) : compute.Operation.t :=
  {| compute.Operation.Name := "operation-1";
     compute.Operation.Zone := "https://www.googleapis.com/compute/v1/projects/p/zones/z";
     compute.Operation.Status := status;
     compute.Operation.Error := err;
     compute.Operation.Warnings := None |}.

Definition service : @ComputeService sample_externals t :=
  @Build_ComputeService sample_externals t
    (λ _ _ _ b, (match existing b with Some r => inr r | None => inl true end, b))
    (λ _ _ i b,
       (inr (operation "PENDING" None),
        {| existing := existing b; countdown := countdown b; final_error := final_error b;
           metadata := metadata b; created := created b ++ [i] |}))
    (λ _ _ _ m b,
       (inr (operation "PENDING" None),
        {| existing := existing b; countdown := countdown b; final_error := final_error b;
           metadata := Some m; created := created b |}))
    (λ _ _ _ b,
       (inr (match countdown b with
             | O => operation "DONE" (final_error b)
             | S _ => operation "RUNNING" None
             end), b))
    (λ _ _ _ b, (inl true, b))
    (λ _ _ _ b, (inl false, b))
    (λ _ b,
       {| existing := existing b; countdown := pred (countdown b); final_error := final_error b;
          metadata := metadata b; created := created b |}).

Definition init (r : option compute.Instance.t) (n : nat) (err : ptr compute.OperationError.t) : t :=
  {| existing := r; countdown := n; final_error := err; metadata := None; created := [] |}.
End Scripted.

(** A desired instance that maps without incident. *)
Definition sample_instance : @Instance.t sample_externals :=
  {| Instance.Name := Some "master";
     Instance.Network := Some {| Network.Name := Some "default" |};
     Instance.Tags := Some ["kubernetes"];
     Instance.Preemptible := None;
     Instance.Image := Some "debian-8";
     Instance.Disks := Some {[ "data" := Some {| PersistentDisk.Name := Some "data-disk" |} ]};
     Instance.CanIPForward := Some true;
     Instance.IPAddress := None;
     Instance.Subnet := None;
     Instance.Scopes := Some ["compute-rw"; "storage-ro"];
     Instance.Metadata := Some {[ "startup-script" := Some "#!/bin/bash" ]};
     Instance.Zone := Some "z";
     Instance.MachineType := Some "n1-standard-1";
     Instance.metadataFingerprint := "" |}.

(** A diff with nothing but metadata, and one that also changes the machine
    type. *)
Definition metadata_only_changes : @Instance.t sample_externals :=
  Instance.set_Metadata (Some {[ "startup-script" := Some "#!/bin/bash" ]}) Instance.zero.

Definition mixed_changes : @Instance.t sample_externals :=
  {| Instance.Name := None; Instance.Network := None; Instance.Tags := None;
     Instance.Preemptible := None; Instance.Image := None; Instance.Disks := None;
     Instance.CanIPForward := None; Instance.IPAddress := None; Instance.Subnet := None;
     Instance.Scopes := None;
     Instance.Metadata := Some {[ "startup-script" := Some "#!/bin/bash" ]};
     Instance.Zone := None; Instance.MachineType := Some "n1-standard-2";
     Instance.metadataFingerprint := "" |}.

Definition sample_cloud : GCECloud.t := {| GCECloud.Project := "p"; GCECloud.Region := "r" |}.

(** What the backend answers for the running instance. *)
Definition sample_response : compute.Instance.t :=
  {| compute.Instance.CanIpForward := true;
     compute.Instance.Disks := None;
     compute.Instance.MachineType :=
       "https://www.googleapis.com/compute/v1/projects/p/zones/z/machineTypes/n1-standard-1";
     compute.Instance.Metadata :=
       Some {| compute.Metadata.Items :=
                 Some [ {| compute.MetadataItems.Key := "startup-script";
                           compute.MetadataItems.Value := Some "#!/bin/sh" |} ];
               compute.Metadata.Fingerprint := "fp-1" |};
     compute.Instance.Name := "master";
     compute.Instance.NetworkInterfaces := None;
     compute.Instance.Scheduling := None;
     compute.Instance.ServiceAccounts := None;
     compute.Instance.Tags := Some {| compute.Tags.Items := Some ["kubernetes"] |};
     compute.Instance.Zone := "https://www.googleapis.com/compute/v1/projects/p/zones/z" |}.

Definition sample_world (r : option compute.Instance.t) (n : nat)
    (err : ptr compute.OperationError.t) (changes : @Instance.t sample_externals)
  : World.t Scripted.t :=
  {| World.backend := Scripted.init r n err; World.calls := []; World.changes := changes |}.

(** The five dereferenced fields are set, an address is resolved, and the
    subnet has no name. *)
Definition unnamed_subnet_instance : @Instance.t sample_externals :=
  {| Instance.Name := Some "master";
     Instance.Network := Some {| Network.Name := Some "default" |};
     Instance.Tags := None; Instance.Preemptible := None;
     Instance.Image := Some "debian-8"; Instance.Disks := None;
     Instance.CanIPForward := Some true;
     Instance.IPAddress :=
       Some {| IPAddress.Name := Some "master-ip"; IPAddress.Address := Some "203.0.113.7" |};
     Instance.Subnet := Some {| Subnet.Name := None |};
     Instance.Scopes := None; Instance.Metadata := None;
     Instance.Zone := Some "z"; Instance.MachineType := Some "n1-standard-1";
     Instance.metadataFingerprint := "" |}.

(** [CanIPForward] is nil, and the address task has no address yet. *)
Definition unresolved_address_instance : @Instance.t sample_externals :=
  {| Instance.Name := Some "master";
     Instance.Network := Some {| Network.Name := Some "default" |};
     Instance.Tags := None; Instance.Preemptible := None;
     Instance.Image := Some "debian-8"; Instance.Disks := None;
     Instance.CanIPForward := None;
     Instance.IPAddress := Some {| IPAddress.Name := Some "master-ip"; IPAddress.Address := None |};
     Instance.Subnet := None;
     Instance.Scopes := None; Instance.Metadata := None;
     Instance.Zone := Some "z"; Instance.MachineType := Some "n1-standard-1";
     Instance.metadataFingerprint := "" |}.

(** The world before and after [Find] has read the running instance, and the
    actual task it returned. *)
Definition world_before_find (n : nat) (err : ptr compute.OperationError.t)
    (changes : @Instance.t sample_externals) : World.t Scripted.t :=
  sample_world (Some sample_response) n err changes.

Definition world_after_find (n : nat) (err : ptr compute.OperationError.t)
    (changes : @Instance.t sample_externals) : World.t Scripted.t :=
  (run (Find (H0:=canonical_range) (ComputeService0:=Scripted.service) sample_instance sample_cloud)
       (world_before_find n err changes)).2.

Definition sample_actual : @Instance.t sample_externals :=
  match (run (Find (H0:=canonical_range) (ComputeService0:=Scripted.service)
                sample_instance sample_cloud)
             (world_before_find 0 None Instance.zero)).1 with
  | Ret (Some actual) => actual
  | _ => Instance.zero
  end.

(** ** Further notions used in the properties *)

(** The number of slashes in a string. *)
Fixpoint slashes (s : string) : nat :=
  match s with
  | EmptyString => 0
  | String c s' => (if Ascii.eqb c slash then 1 else 0) + slashes s'
  end.

(** A slice from a list as a loop of [append] leaves it: nil when nothing
    was appended. *)
Definition appended {A} (l : list A) : slice A :=
  match l with
  | [] => None
  | _ => Some l
  end.

(** A desired instance with a resolved address and a named subnet. *)
Definition addressed_instance : @Instance.t sample_externals :=
  {| Instance.Name := Some "master";
     Instance.Network := Some {| Network.Name := Some "default" |};
     Instance.Tags := None; Instance.Preemptible := Some true;
     Instance.Image := Some "debian-8"; Instance.Disks := None;
     Instance.CanIPForward := Some true;
     Instance.IPAddress :=
       Some {| IPAddress.Name := Some "master-ip"; IPAddress.Address := Some "203.0.113.7" |};
     Instance.Subnet := Some {| Subnet.Name := Some "subnet-1" |};
     Instance.Scopes := Some []; Instance.Metadata := None;
     Instance.Zone := Some "z"; Instance.MachineType := Some "n1-standard-1";
     Instance.metadataFingerprint := "" |}.

(** A desired instance one of whose metadata sources cannot be read. *)
Definition unreadable_metadata_instance : @Instance.t sample_externals :=
  Instance.set_Metadata (Some {[ "startup-script" := None ]}) sample_instance.

(** An action that only reads: from every world, the calls it adds are no
    updates and the diff is left as it was. *)
Definition reads_only `{Externals} {B A} (m : action B A) : Prop :=
  ∀ w, updates (World.calls (run m w).2) = updates (World.calls w)
       ∧ World.changes (run m w).2 = World.changes w.

(** A response whose first network interface has a NAT address; the scripted
    backend fails the address list. *)
Definition natted_response : compute.Instance.t :=
  {| compute.Instance.CanIpForward := true;
     compute.Instance.Disks := None;
     compute.Instance.MachineType :=
       "https://www.googleapis.com/compute/v1/projects/p/zones/z/machineTypes/n1-standard-1";
     compute.Instance.Metadata := None;
     compute.Instance.Name := "master";
     compute.Instance.NetworkInterfaces :=
       Some [ {| compute.NetworkInterface.AccessConfigs :=
                   Some [ {| compute.AccessConfig.NatIP := "203.0.113.7";
                             compute.AccessConfig.Type_ := "ONE_TO_ONE_NAT" |} ];
                 compute.NetworkInterface.Network :=
                   "https://www.googleapis.com/compute/v1/projects/p/global/networks/default";
                 compute.NetworkInterface.Subnetwork := "" |} ];
     compute.Instance.Scheduling := None;
     compute.Instance.ServiceAccounts := None;
     compute.Instance.Tags := Some {| compute.Tags.Items := None |};
     compute.Instance.Zone := "https://www.googleapis.com/compute/v1/projects/p/zones/z" |}.

(** A response without a tags record. *)
Definition untagged_response : compute.Instance.t :=
  {| compute.Instance.CanIpForward := false;
     compute.Instance.Disks := None;
     compute.Instance.MachineType := "";
     compute.Instance.Metadata := None;
     compute.Instance.Name := "master";
     compute.Instance.NetworkInterfaces := None;
     compute.Instance.Scheduling := None;
     compute.Instance.ServiceAccounts := None;
     compute.Instance.Tags := None;
     compute.Instance.Zone := "" |}.

(** The calls of a poll loop whose first [k] queries were each followed by
    the sleep. *)
Definition pending_calls (project zone name : string) (k : nat) : list Call :=
  mjoin (replicate k [ZoneOperationsGet project zone name; Sleep 1]).

(** The backend after [k] queries, each followed by the sleep. *)
Fixpoint after_polls `{Externals} {B} `{!ComputeService B} (project zone name : string)
    (k : nat) (b : B) : B :=
  match k with
  | O => b
  | S k' => after_polls project zone name k'
              (time_Sleep 1 (ZoneOperations_Get project zone name b).2)
  end.

(** A failing service: every call but the status query fails; the status
    query answers with a status the poller does not know until the counter
    runs out, and fails from then on. *)
Module Failing.
Definition service : @ComputeService sample_externals nat :=
  @Build_ComputeService sample_externals nat
    (λ _ _ _ b, (inl true, b))
    (λ _ _ _ b, (inl false, b))
    (λ _ _ _ _ b, (inl false, b))
    (λ _ _ _ b,
       (match b with
        | O => inl false
        | S _ => inr (Scripted.operation "SUSPENDED" None)
        end, b))
    (λ _ _ _ b, (inl true, b))
    (λ _ _ _ b, (inl false, b))
    (λ _ b, pred b).

Definition world (n : nat) (changes : @Instance.t sample_externals) : World.t nat :=
  {| World.backend := n; World.calls := []; World.changes := changes |}.
End Failing.

(** A diff that changes the machine type only. *)
Definition machine_type_changes : @Instance.t sample_externals :=
  Instance.set_MachineType (Some "n1-standard-2") Instance.zero.

(** An operation error record with one message. *)
Definition quota_error : compute.OperationError.t :=
  {| compute.OperationError.Errors :=
       Some [ {| compute.OperationErrorErrors.Message := "quota exceeded" |} ] |}.


(** * Properties *)

(** ** Strings and URLs *)


Lemma Split_nonempty s : Split s ≠ [].
Proof.
  induction s as [|c s IH]; simpl; [done|].
  destruct (Ascii.eqb c slash); [done|]. by destruct (Split s).
Qed.

Lemma Split_slash_free s : slash_free s = true → Split s = [s].
Proof.
  induction s as [|c s IH]; simpl; [done|].
  intros [Hc Hs]%andb_prop. apply negb_true_iff in Hc. rewrite Hc.
  by rewrite IH.
Qed.

Lemma Split_app_slash s t :
  slash_free s = true → Split (s +:+ String slash t) = s :: Split t.
Proof.
  induction s as [|c s IH]; simpl; [done|].
  intros [Hc Hs]%andb_prop. apply negb_true_iff in Hc. rewrite Hc.
  by rewrite IH.
Qed.

Lemma slash_free_app_slash s t : slash_free (s +:+ String slash t) = false.
Proof.
  induction s as [|c s IH]; simpl; [done|]. rewrite IH. apply andb_false_r.
Qed.

Lemma TrimPrefix_app pre s : TrimPrefix pre (pre +:+ s) = Some s.
Proof.
  induction pre as [|c pre IH]; simpl; [by destruct s|].
  by rewrite Ascii.eqb_refl.
Qed.

Lemma ParseGoogleCloudURL_zonal `{Externals} p z ty n :
  slash_free p = true → slash_free z = true → slash_free ty = true → slash_free n = true →
  ParseGoogleCloudURL
    ("https://www.googleapis.com/compute/v1/projects/" +:+ p +:+ "/zones/" +:+ z
       +:+ String slash (ty +:+ String slash n))
  = Ret {| GoogleCloudURL.Project := p; GoogleCloudURL.Name := n |}.
Proof.
  intros Hp Hz Hty Hn. unfold ParseGoogleCloudURL.
  change ("https://www.googleapis.com/compute/v1/projects/" +:+ ?x)
    with ("https://www.googleapis.com/compute/v1/" +:+ ("projects" +:+ String slash x)).
  rewrite TrimPrefix_app.
  change ("/zones/" +:+ ?x) with (String slash ("zones" +:+ String slash x)).
  rewrite !(Split_app_slash) by done.
  by rewrite Split_slash_free.
Qed.

Lemma ParseGoogleCloudURL_global `{Externals} p ty n :
  slash_free p = true → slash_free ty = true → slash_free n = true →
  ParseGoogleCloudURL
    ("https://www.googleapis.com/compute/v1/projects/" +:+ p +:+ "/global/"
       +:+ ty +:+ String slash n)
  = Ret {| GoogleCloudURL.Project := p; GoogleCloudURL.Name := n |}.
Proof.
  intros Hp Hty Hn. unfold ParseGoogleCloudURL.
  change ("https://www.googleapis.com/compute/v1/projects/" +:+ ?x)
    with ("https://www.googleapis.com/compute/v1/" +:+ ("projects" +:+ String slash x)).
  rewrite TrimPrefix_app.
  change ("/global/" +:+ ?x) with (String slash ("global" +:+ String slash x)).
  rewrite !(Split_app_slash) by done.
  by rewrite Split_slash_free.
Qed.

Lemma BuildImageURL_bare `{Externals} p n :
  slash_free n = true →
  BuildImageURL p n
  = Ret ("https://www.googleapis.com/compute/v1/projects/" +:+ p +:+ "/global/images/" +:+ n).
Proof. intros Hn. unfold BuildImageURL. by rewrite Split_slash_free. Qed.

Lemma BuildImageURL_qualified `{Externals} p2 p1 n :
  slash_free p1 = true → slash_free n = true →
  BuildImageURL p2 (p1 +:+ "/" +:+ n)
  = Ret ("https://www.googleapis.com/compute/v1/projects/" +:+ p1 +:+ "/global/images/" +:+ n).
Proof.
  intros Hp1 Hn. unfold BuildImageURL.
  change ("/" +:+ n) with (String slash n).
  by rewrite Split_app_slash, Split_slash_free.
Qed.

(** C6: project, zone and name are path components of a URL, that is,
    strings without a slash. Parsing the machine-type URL built from project
    [p], zone [z] and name [n] gives back [p] and [n]; the image URL of the
    bare name [n] in project [p] shortens to [n] against [p]; and the image
    URL of the spec [p1/n] shortens to [p1/n] against any other default
    project [p2]. *)
Theorem url_round_trip `{Externals} (p z n p1 p2 : string) :
  slash_free p = true → slash_free z = true → slash_free n = true →
  slash_free p1 = true → p1 ≠ p2 →
  ParseGoogleCloudURL (BuildMachineTypeURL p z n)
    = Ret {| GoogleCloudURL.Project := p; GoogleCloudURL.Name := n |}
  ∧ (url ← BuildImageURL p n; ShortenImageURL p url) = Ret n
  ∧ (url ← BuildImageURL p2 (p1 +:+ "/" +:+ n); ShortenImageURL p2 url)
    = Ret (p1 +:+ "/" +:+ n).
Proof.
  intros Hp Hz Hn Hp1 Hne. split; [|split].
  - unfold BuildMachineTypeURL.
    change ("/machineTypes/" +:+ n) with (String slash ("machineTypes" +:+ String slash n)).
    by apply ParseGoogleCloudURL_zonal.
  - rewrite BuildImageURL_bare by done. simpl. unfold ShortenImageURL.
    change ("/global/images/" +:+ n) with ("/global/" +:+ "images" +:+ String slash n).
    rewrite ParseGoogleCloudURL_global by done. simpl.
    by rewrite String.eqb_refl.
  - rewrite BuildImageURL_qualified by done. simpl. unfold ShortenImageURL.
    change ("/global/images/" +:+ n) with ("/global/" +:+ "images" +:+ String slash n).
    rewrite ParseGoogleCloudURL_global by done. simpl.
    destruct (String.eqb_spec p1 p2); [done|]. done.
Qed.

Lemma url_round_trip_witness :
  ParseGoogleCloudURL (H:=sample_externals) (BuildMachineTypeURL "p" "z" "n1-standard-1")
    = Ret {| GoogleCloudURL.Project := "p"; GoogleCloudURL.Name := "n1-standard-1" |}.
Proof.
  apply (url_round_trip (H:=sample_externals) "p" "z" "n1-standard-1" "q" "p");
    [reflexivity..|discriminate].
Defined.

(** ** Scope aliases *)


Lemma first_key_of_Some s l k :
  NoDup l.*2 → (k, s) ∈ l → first_key_of s l = Some k.
Proof.
  induction l as [|[k' v'] l IH]; intros Hnd Hin; [by apply elem_of_nil in Hin|].
  simpl in *. apply NoDup_cons in Hnd as [Hnotin Hnd].
  destruct (String.eqb_spec v' s) as [->|Hne].
  - apply elem_of_cons in Hin as [Heq|Hin]; [congruence|].
    exfalso. apply Hnotin. apply list_elem_of_fmap. by exists (k, s).
  - apply elem_of_cons in Hin as [Heq|Hin]; [congruence|]. by apply IH.
Qed.

Lemma first_key_of_None s l : s ∉ l.*2 → first_key_of s l = None.
Proof.
  induction l as [|[k' v'] l IH]; intros Hnotin; [done|].
  simpl in *. apply not_elem_of_cons in Hnotin as [Hne Hnotin].
  destruct (String.eqb_spec v' s); [congruence|]. by apply IH.
Qed.

Lemma first_key_of_perm s l1 l2 :
  NoDup l1.*2 → l1 ≡ₚ l2 → first_key_of s l1 = first_key_of s l2.
Proof.
  intros Hnd Hperm.
  assert (NoDup l2.*2) as Hnd2 by (by rewrite <- Hperm).
  destruct (decide (s ∈ l1.*2)) as [Hin|Hnotin].
  - apply list_elem_of_fmap in Hin as [[k v] [-> Hin]]. simpl.
    rewrite (first_key_of_Some _ _ k Hnd Hin).
    symmetry. apply first_key_of_Some; [done|]. by rewrite <- Hperm.
  - rewrite (first_key_of_None _ _ Hnotin).
    symmetry. apply first_key_of_None. by rewrite <- Hperm.
Qed.

Lemma scope_table_keys_NoDup : NoDup scope_table.*1.
Proof. apply (bool_decide_unpack _). by vm_compute. Qed.

Lemma scope_table_values_NoDup : NoDup scope_table.*2.
Proof. apply (bool_decide_unpack _). by vm_compute. Qed.

Lemma scopeToShortForm_table `{MapRange} s :
  scopeToShortForm s = default s (first_key_of s scope_table).
Proof.
  unfold scopeToShortForm. f_equal. symmetry.
  apply first_key_of_perm; [apply scope_table_values_NoDup|].
  rewrite map_range_perm. symmetry.
  apply map_to_list_to_map, scope_table_keys_NoDup.
Qed.

Lemma expandScopeAlias_unknown s : s ∉ aliases → expandScopeAlias s = s.
Proof.
  intros Hnotin. unfold expandScopeAlias.
  repeat match goal with
  | |- context [String.eqb s ?lit] =>
      destruct (String.eqb_spec s lit) as [->|_];
      [exfalso; apply Hnotin; unfold aliases; simpl; set_solver|]
  end.
  done.
Qed.

(** X1: [scopeToLongForm], the lookup in the table that [init] builds, and
    [expandScopeAlias], the [switch], are the same function on every
    string. *)
Lemma scopeToLongForm_expandScopeAlias s : scopeToLongForm s = expandScopeAlias s.
Proof.
  unfold scopeToLongForm.
  destruct (decide (s ∈ aliases)) as [Hin|Hnotin].
  - unfold aliases in Hin. simpl in Hin.
    repeat (apply elem_of_cons in Hin as [->|Hin]; [by vm_compute|]).
    by apply elem_of_nil in Hin.
  - rewrite expandScopeAlias_unknown by done.
    assert (scopeAliases !! s = None) as ->; [|done].
    apply not_elem_of_list_to_map_1. done.
Qed.

(** C5: the table has 7 entries; shortening the expansion of each of the 7
    aliases gives the alias back, expanding the short form of each of the 7
    URIs gives the URI back, and a string that is neither an alias nor a
    URI is left as it is by both functions. The order in which the runtime
    ranges over the table does not matter. *)
Theorem scope_alias_round_trip `{MapRange} :
  length scope_table = 7
  ∧ (∀ a, a ∈ aliases → scopeToShortForm (expandScopeAlias a) = a)
  ∧ (∀ u, u ∈ uris → expandScopeAlias (scopeToShortForm u) = u)
  ∧ (∀ s, s ∉ aliases → s ∉ uris → expandScopeAlias s = s ∧ scopeToShortForm s = s).
Proof.
  split; [done|]. split; [|split].
  - intros a Hin. rewrite scopeToShortForm_table.
    unfold aliases in Hin. simpl in Hin.
    repeat (apply elem_of_cons in Hin as [->|Hin]; [by vm_compute|]).
    by apply elem_of_nil in Hin.
  - intros u Hin. rewrite scopeToShortForm_table.
    unfold uris in Hin. simpl in Hin.
    repeat (apply elem_of_cons in Hin as [->|Hin]; [by vm_compute|]).
    by apply elem_of_nil in Hin.
  - intros s Ha Hu. split; [by apply expandScopeAlias_unknown|].
    rewrite scopeToShortForm_table. by rewrite first_key_of_None.
Qed.

(** ** The zero test and the mapping *)

(** C8: [isZero] is true of the empty diff, and false of every diff in which
    some field is set: a non-nil pointer, slice or map, or a non-empty
    fingerprint. In particular it is false when only one field is set. *)
Theorem isZero_empty_and_single_field `{Externals} :
  isZero Instance.zero = true
  ∧ ∀ i : Instance.t,
      (Instance.Name i ≠ None ∨ Instance.Network i ≠ None ∨ Instance.Tags i ≠ None
       ∨ Instance.Preemptible i ≠ None ∨ Instance.Image i ≠ None ∨ Instance.Disks i ≠ None
       ∨ Instance.CanIPForward i ≠ None ∨ Instance.IPAddress i ≠ None
       ∨ Instance.Subnet i ≠ None ∨ Instance.Scopes i ≠ None ∨ Instance.Metadata i ≠ None
       ∨ Instance.Zone i ≠ None ∨ Instance.MachineType i ≠ None
       ∨ Instance.metadataFingerprint i ≠ "") →
      isZero i = false.
Proof.
  split; [reflexivity|].
  intros [name network tags preemptible image disks canIPForward ipAddress subnet scopes
          metadata zone machineType fingerprint] Hset.
  unfold isZero, DeepEqual_Instance, DeepEqual_slice, Instance.zero. simpl in *.
  repeat destruct Hset as [Hset|Hset];
    try (match type of Hset with ?x ≠ None => destruct x; [|done] end;
         simpl; by rewrite ?andb_false_r).
  destruct fingerprint; [done|]. simpl. by rewrite ?andb_false_r.
Qed.

(** X5: [isZero] holds of the empty diff and of nothing else: a diff passes
    the gate of [RenderGCE] exactly when every field is nil and the
    fingerprint is empty. *)
Lemma isZero_iff `{Externals} (i : Instance.t) : isZero i = true ↔ i = Instance.zero.
Proof.
  split; [|by intros ->].
  destruct i as [name network tags preemptible image disks canIPForward ipAddress subnet scopes
          metadata zone machineType fingerprint].
  unfold isZero, DeepEqual_Instance, DeepEqual_slice, Instance.zero. simpl.
  rewrite !andb_true_iff. intros Hall.
  repeat match goal with H : _ ∧ _ |- _ => destruct H end.
  repeat match goal with
  | H : match ?x with Some _ => false | None => true end = true |- _ =>
      destruct x; [discriminate H|clear H]
  end.
  by destruct fingerprint.
Qed.

(** *** Inversion of sequenced steps *)

Lemma bind_Ret_inv `{Externals} {A B} (m : outcome A) (f : A → outcome B) (b : B) :
  m ≫= f = Ret b → ∃ a, m = Ret a ∧ f a = Ret b.
Proof. destruct m; try discriminate. intros Hf. by eexists. Qed.

Lemma foldlM_disks `{Externals} project (l : list (string * ptr PersistentDisk.t)) acc r :
  foldlM (λ disks '(name, disk),
            source ← url_call (PersistentDisk_URL disk project);
            Ret (append disks
              {| compute.AttachedDisk.InitializeParams := None;
                 compute.AttachedDisk.Boot := false;
                 compute.AttachedDisk.DeviceName := name;
                 compute.AttachedDisk.Index := 0;
                 compute.AttachedDisk.AutoDelete := false;
                 compute.AttachedDisk.Mode := "READ_WRITE";
                 compute.AttachedDisk.Type_ := "";
                 compute.AttachedDisk.Source := source |})) (Some acc) l = Ret r →
  ∃ rest, r = Some (acc ++ rest)
          ∧ compute.AttachedDisk.DeviceName <$> rest = l.*1
          ∧ Forall (λ d, compute.AttachedDisk.AutoDelete d = false) rest.
Proof.
  revert acc. induction l as [|[name disk] l IH]; intros acc Hfold; simpl in Hfold.
  - injection Hfold as <-. exists []. by rewrite app_nil_r.
  - apply bind_Ret_inv in Hfold as (acc' & Hstep & Hfold).
    apply bind_Ret_inv in Hstep as (source & _ & Hstep). injection Hstep as <-.
    apply IH in Hfold as (rest & -> & Hnames & Hauto).
    eexists (_ :: rest). rewrite <- app_assoc. split; [done|].
    split; [by rewrite fmap_cons, Hnames|by constructor].
Qed.

Lemma deref_Ret_inv `{Externals} {A} (p : ptr A) (a : A) : deref p = Ret a → p = Some a.
Proof. destruct p; [|discriminate]. by injection 1 as ->. Qed.

(** What a successful mapping says about the task and the payload. *)
Lemma mapToGCE_Ret_inv `{Externals} `{MapRange} e project resolver i :
  mapToGCE e project resolver = Ret i →
  ∃ zone name boot rest items,
    Instance.Zone e = Some zone
    ∧ Instance.Name e = Some name
    ∧ compute.Instance.Name i = name
    ∧ compute.Instance.Metadata i
      = Some {| compute.Metadata.Items := items; compute.Metadata.Fingerprint := "" |}
    ∧ compute.Instance.Disks i = Some (boot :: rest)
    ∧ compute.AttachedDisk.DeviceName boot = "persistent-disks-0"
    ∧ compute.AttachedDisk.Boot boot = true
    ∧ compute.AttachedDisk.AutoDelete boot = true
    ∧ compute.AttachedDisk.Index boot = 0%Z
    ∧ compute.AttachedDisk.DeviceName <$> rest = (range (Instance.Disks e)).*1
    ∧ Forall (λ d, compute.AttachedDisk.AutoDelete d = false) rest
    ∧ (Instance.IPAddress e = None → compute.Instance.NetworkInterfaces i = None).
Proof.
  unfold mapToGCE. intros Hmap.
  apply bind_Ret_inv in Hmap as (zone & Hzone%deref_Ret_inv & Hmap).
  apply bind_Ret_inv in Hmap as (image & Himage%deref_Ret_inv & Hmap).
  apply bind_Ret_inv in Hmap as (sourceImage & _ & Hmap).
  apply bind_Ret_inv in Hmap as (disks & Hdisks & Hmap).
  apply bind_Ret_inv in Hmap as (nis & Hnis & Hmap).
  apply bind_Ret_inv in Hmap as (items & _ & Hmap).
  apply bind_Ret_inv in Hmap as (canIpForward & _ & Hmap).
  apply bind_Ret_inv in Hmap as (machineType & _ & Hmap).
  apply bind_Ret_inv in Hmap as (name & Hname%deref_Ret_inv & Hmap).
  injection Hmap as <-. simpl.
  apply foldlM_disks in Hdisks as (rest & -> & Hnames & Hauto).
  eexists zone, name, _, rest, items.
  repeat split; try done.
  intros Hip. rewrite Hip in Hnis. by injection Hnis as <-.
Qed.

(** C10: when [IPAddress] is nil, every payload that [mapToGCE] produces
    has a nil network-interface list, and the mapping does not depend on
    [Network] or [Subnet]: replacing them changes nothing. *)
Theorem mapToGCE_without_IPAddress `{Externals} `{MapRange} (e : Instance.t) project resolver :
  Instance.IPAddress e = None →
  (∀ i, mapToGCE e project resolver = Ret i → compute.Instance.NetworkInterfaces i = None)
  ∧ (∀ network subnet,
       mapToGCE (Instance.set_Network network (Instance.set_Subnet subnet e)) project resolver
       = mapToGCE e project resolver).
Proof.
  intros Hip. split.
  - intros i Hmap. apply mapToGCE_Ret_inv in Hmap.
    destruct Hmap as (?&?&?&?&?&?&?&?&?&?&?&?&?&?&?&?&Hnis). by apply Hnis.
  - intros network subnet. unfold mapToGCE. simpl. by rewrite Hip.
Qed.

Lemma mapToGCE_without_IPAddress_witness :
  ∃ i, mapToGCE (H:=sample_externals) (H0:=canonical_range)
         (Instance.set_Network (Some {| Network.Name := Some "default" |}) sample_instance)
         "p" gce_ipAddressResolver = Ret i
       ∧ compute.Instance.NetworkInterfaces i = None.
Proof.
  eexists. split; [vm_compute; reflexivity|].
  apply (mapToGCE_without_IPAddress (H:=sample_externals) (H0:=canonical_range)
           (Instance.set_Network (Some {| Network.Name := Some "default" |}) sample_instance)
           "p" gce_ipAddressResolver); vm_compute; reflexivity.
Defined.

Lemma returns_bind `{Externals} {A B} (m : outcome A) (f : A → outcome B) :
  returns m → (∀ a, m = Ret a → returns (f a)) → returns (m ≫= f).
Proof. destruct m; simpl; try done. intros _ Hf. by apply Hf. Qed.

Lemma elem_of_range `{MapRange} {V} (d : gomap V) k v :
  (k, v) ∈ range d ↔ ∃ m, d = Some m ∧ m !! k = Some v.
Proof.
  destruct d as [m|]; simpl.
  - rewrite map_range_perm, elem_of_map_to_list. split.
    + intros Hl. by exists m.
    + by intros (m' & [= <-] & Hl).
  - rewrite elem_of_nil. split; [done|]. by intros (m & [=] & _).
Qed.

Lemma foldlM_disks_returns `{Externals} project (l : list (string * ptr PersistentDisk.t)) acc :
  (∀ k d, (k, d) ∈ l → is_Some (PersistentDisk_URL d project)) →
  ∃ r, foldlM (λ disks '(name, disk),
            source ← url_call (PersistentDisk_URL disk project);
            Ret (append disks
              {| compute.AttachedDisk.InitializeParams := None;
                 compute.AttachedDisk.Boot := false;
                 compute.AttachedDisk.DeviceName := name;
                 compute.AttachedDisk.Index := 0;
                 compute.AttachedDisk.AutoDelete := false;
                 compute.AttachedDisk.Mode := "READ_WRITE";
                 compute.AttachedDisk.Type_ := "";
                 compute.AttachedDisk.Source := source |})) acc l = Ret r.
Proof.
  revert acc. induction l as [|[name disk] l IH]; intros acc Hurl; simpl; [by eexists|].
  destruct (Hurl name disk) as [source ->]; [by left|]. simpl.
  apply IH. intros k d Hin. apply (Hurl k d). by right.
Qed.

Lemma foldlM_metadata_returns `{Externals} (l : list (string * Resource)) acc :
  returns (foldlM (λ metadataItems '(key, r),
                     v ← on_error (api (ResourceAsString r))
                           (λ err, Errorf "error rendering Instance metadata %q: %v"
                                     [ArgString key; ArgError (Some err)]);
                     Ret (append metadataItems
                       {| compute.MetadataItems.Key := key;
                          compute.MetadataItems.Value := String_ v |})) acc l).
Proof.
  revert acc. induction l as [|[key r] l IH]; intros acc; simpl; [done|].
  destruct (ResourceAsString r); simpl; [done|]. apply IH.
Qed.

Lemma BuildImageURL_returns `{Externals} project image :
  length (Split image) ≤ 2 → ∃ url, BuildImageURL project image = Ret url.
Proof.
  unfold BuildImageURL. pose proof (Split_nonempty image) as Hne.
  destruct (Split image) as [|t0 [|t1 [|t2 ts]]]; simpl; intros Hlen;
    [done|by eexists|by eexists|lia].
Qed.

(** The resolver of the live target always comes back; the resolver of the
    template target faults on an address task without a name. *)
Lemma gce_ipAddressResolver_returns `{Externals} ip : returns (gce_ipAddressResolver ip).
Proof. exact I. Qed.

Lemma terraform_ipAddressResolver_nil_Name `{Externals} ip :
  IPAddress.Name ip = None → terraform_ipAddressResolver ip = Panic nil_dereference.
Proof. intros Hname. unfold terraform_ipAddressResolver. by rewrite Hname. Qed.

(** C9, as the code has it. A nil [Zone] or [Image] always faults. A nil
    [CanIPForward], [MachineType] or [Name] faults whenever the rest of the
    task maps, that is, whenever the task with these three fields replaced
    maps to a payload. With the five fields set the mapping comes back,
    with a payload or an error, provided the image spec has at most one
    slash, the disks' URL methods do not fault, and, when an address is
    given, the resolver comes back, the network's URL method does not
    fault and a subnet has a name. *)
Theorem mapToGCE_nil_fields `{Externals} `{MapRange} (e : Instance.t) project resolver :
  (Instance.Zone e = None → mapToGCE e project resolver = Panic nil_dereference)
  ∧ (Instance.Zone e ≠ None → Instance.Image e = None →
     mapToGCE e project resolver = Panic nil_dereference)
  ∧ (∀ c m n i,
       mapToGCE (Instance.set_CanIPForward c (Instance.set_MachineType m (Instance.set_Name n e)))
         project resolver = Ret i →
       Instance.CanIPForward e = None ∨ Instance.MachineType e = None ∨ Instance.Name e = None →
       mapToGCE e project resolver = Panic nil_dereference)
  ∧ (Instance.Zone e ≠ None → Instance.CanIPForward e ≠ None →
     Instance.MachineType e ≠ None → Instance.Name e ≠ None →
     (∃ image, Instance.Image e = Some image ∧ length (Split image) ≤ 2) →
     (∀ disks k d, Instance.Disks e = Some disks → disks !! k = Some d →
        is_Some (PersistentDisk_URL d project)) →
     (∀ ip, Instance.IPAddress e = Some ip →
        returns (resolver ip)
        ∧ is_Some (Network_URL (Instance.Network e) project)
        ∧ ∀ subnet, Instance.Subnet e = Some subnet → Subnet.Name subnet ≠ None) →
     returns (mapToGCE e project resolver)).
Proof.
  split; [|split; [|split]].
  - intros Hzone. unfold mapToGCE. by rewrite Hzone.
  - intros Hzone Himage. unfold mapToGCE. rewrite Himage.
    by destruct (Instance.Zone e).
  - intros c m n i Hmap Hnil. unfold mapToGCE in *.
    unfold Instance.set_CanIPForward, Instance.set_MachineType, Instance.set_Name in Hmap.
    cbn [Instance.Zone Instance.Name Instance.Network Instance.Tags Instance.Preemptible
         Instance.Image Instance.Disks Instance.CanIPForward Instance.IPAddress
         Instance.Subnet Instance.Scopes Instance.Metadata Instance.MachineType] in Hmap.
    do 6 (let x := fresh "x" in let Hx := fresh "Hx" in
          apply bind_Ret_inv in Hmap as (x & Hx & Hmap);
          rewrite Hx; cbn [mbind outcome_bind]).
    destruct Hnil as [Hc|[Hm|Hn]].
    + by rewrite Hc.
    + rewrite Hm. by destruct (Instance.CanIPForward e).
    + rewrite Hn. by destruct (Instance.CanIPForward e), (Instance.MachineType e).
  - intros Hzone Hcan Hmt Hname (image & Himage & Hlen) Hdisks Hip. unfold mapToGCE.
    destruct (Instance.Zone e) as [zone|]; [|done].
    destruct (Instance.CanIPForward e) as [canIpForward|]; [|done].
    destruct (Instance.MachineType e) as [machineType|]; [|done].
    destruct (Instance.Name e) as [name|]; [|done].
    rewrite Himage. cbn [deref mbind outcome_bind].
    destruct (BuildImageURL_returns project image Hlen) as [url ->].
    cbn [mbind outcome_bind].
    edestruct (foldlM_disks_returns project (range (Instance.Disks e))) as [disks ->].
    { intros k d (m & Hm & Hk)%elem_of_range. by eapply Hdisks. }
    cbn [mbind outcome_bind].
    apply returns_bind.
    + destruct (Instance.IPAddress e) as [ip|]; [|done].
      destruct (Hip ip eq_refl) as (Hres & [network ->] & Hsubnet).
      destruct (resolver ip) as [[natIP|]| | | |]; simpl in *; try done.
      destruct (Instance.Subnet e) as [subnet|]; [|done].
      specialize (Hsubnet subnet eq_refl). by destruct (Subnet.Name subnet).
    + intros nis _. apply returns_bind; [apply foldlM_metadata_returns|done].
Qed.

(** ** The operation poller *)

Section poller.
Context `{Externals} {B : Type} `{!ComputeService B}.
Implicit Types (w : World.t B) (b : B) (st : compute.Operation.t).

Lemma pending_until_S project zone name k b :
  pending_until project zone name (S k) b →
  ∃ st, ZoneOperations_Get project zone name b = (inr st, (ZoneOperations_Get project zone name b).2)
        ∧ compute.Operation.Status st ≠ "DONE"
        ∧ pending_until project zone name k
            (time_Sleep 1 (ZoneOperations_Get project zone name b).2).
Proof.
  intros Hpending. destruct (Hpending 0) as (st & Hst & Hne); [lia|].
  exists st. simpl in Hst. split; [|split; [done|]].
  - destruct (ZoneOperations_Get project zone name b) as [r b']. simpl in *. by subst.
  - intros j Hj. apply (Hpending (S j)). lia.
Qed.

Lemma poll_calls_S project zone name k :
  poll_calls project zone name (S k)
  = ZoneOperationsGet project zone name :: Sleep 1 :: poll_calls project zone name k.
Proof. reflexivity. Qed.

(** The loop returns the first ["DONE"] status, after one query per answer
    and one sleep per answer that was not ["DONE"]. *)
Lemma poll_done project zone name k : ∀ fuel w st,
  pending_until project zone name k (World.backend w) →
  (nth_poll project zone name k (World.backend w)).1 = inr st →
  compute.Operation.Status st = "DONE" →
  k < fuel →
  run (poll fuel project zone name) w
  = (Ret st, {| World.backend := (nth_poll project zone name k (World.backend w)).2;
                World.calls := World.calls w ++ poll_calls project zone name k;
                World.changes := World.changes w |}).
Proof.
  induction k as [|k IH]; intros fuel w st Hpending Hk Hdone Hfuel;
    (destruct fuel as [|fuel]; [lia|]); simpl.
  - simpl in Hk. destruct (ZoneOperations_Get project zone name (World.backend w)) as [r b'].
    simpl in *. subst r. simpl. by rewrite Hdone.
  - apply pending_until_S in Hpending as (st0 & Hget & Hne & Hpending).
    simpl in Hk. rewrite Hget. simpl.
    apply String.eqb_neq in Hne. rewrite Hne. simpl.
    rewrite (IH fuel _ st); simpl; [|done..|lia].
    rewrite poll_calls_S. by rewrite <- !app_assoc.
Qed.

(** While no answer is ["DONE"], the loop is still running. *)
Lemma poll_running project zone name : ∀ fuel w,
  pending_until project zone name fuel (World.backend w) →
  (run (poll fuel project zone name) w).1 = Running.
Proof.
  induction fuel as [|fuel IH]; intros w Hpending; [done|]. simpl.
  apply pending_until_S in Hpending as (st0 & Hget & Hne & Hpending).
  rewrite Hget. simpl. apply String.eqb_neq in Hne. rewrite Hne. simpl.
  match goal with |- context [run (poll fuel project zone name) ?w'] =>
    specialize (IH w' Hpending);
    destruct (run (poll fuel project zone name) w') as [[] ?]
  end; simpl in *; congruence.
Qed.

Lemma bind_run {A C} (m : action B A) (f : A → action B C) w :
  run (m ≫= f) w
  = match run m w with
    | (Ret a, w') => run (f a) w'
    | (Fail err, w') => (Fail err, w')
    | (Panic why, w') => (Panic why, w')
    | (Exit format args, w') => (Exit format args, w')
    | (Running, w') => (Running, w')
    end.
Proof. reflexivity. Qed.

(** What [waitCompletion] does once the loop has seen ["DONE"]: success
    without an error record, the first message of a non-empty error list,
    and an index out of range when the record has an empty list. *)
Lemma waitCompletion_done project op k fuel w st :
  let zone := lastComponent (compute.Operation.Zone op) in
  let name := compute.Operation.Name op in
  pending_until project zone name k (World.backend w) →
  (nth_poll project zone name k (World.backend w)).1 = inr st →
  compute.Operation.Status st = "DONE" →
  k < fuel →
  run (waitCompletion fuel project op) w
  = (match compute.Operation.Error st with
     | None => Ret tt
     | Some operr =>
         match elems (compute.OperationError.Errors operr) with
         | e0 :: _ =>
             Fail (Errorf "operation failed: %v"
                     [ArgString (compute.OperationErrorErrors.Message e0)])
         | [] => Panic index_out_of_range
         end
     end,
     {| World.backend := (nth_poll project zone name k (World.backend w)).2;
        World.calls := World.calls w ++ poll_calls project zone name k;
        World.changes := World.changes w |}).
Proof.
  intros zone name Hpending Hk Hdone Hfuel. unfold waitCompletion.
  rewrite bind_run. fold zone name. rewrite (poll_done _ _ _ k fuel w st) by done.
  destruct (compute.Operation.Error st) as [operr|]; [|done].
  by destruct (elems (compute.OperationError.Errors operr)).
Qed.

(** [waitCompletion] does not return while the status stays ["PENDING"] or
    ["RUNNING"]. *)
Lemma waitCompletion_blocks project op fuel w :
  let zone := lastComponent (compute.Operation.Zone op) in
  let name := compute.Operation.Name op in
  (∀ j, j < fuel →
     ∃ st, (nth_poll project zone name j (World.backend w)).1 = inr st
           ∧ (compute.Operation.Status st = "PENDING"
              ∨ compute.Operation.Status st = "RUNNING")) →
  (run (waitCompletion fuel project op) w).1 = Running.
Proof.
  intros zone name Hpending. unfold waitCompletion. rewrite bind_run. fold zone name.
  assert (pending_until project zone name fuel (World.backend w)) as Hp.
  { intros j Hj. destruct (Hpending j Hj) as (st & Hst & Hstatus). exists st.
    split; [done|]. by destruct Hstatus as [-> | ->]. }
  apply poll_running in Hp.
  by destruct (run (poll fuel project zone name) w) as [[] ?].
Qed.

Lemma waitCompletion_pending project op fuel w :
  let zone := lastComponent (compute.Operation.Zone op) in
  let name := compute.Operation.Name op in
  pending_until project zone name fuel (World.backend w) →
  (run (waitCompletion fuel project op) w).1 = Running.
Proof.
  intros zone name Hp. unfold waitCompletion. rewrite bind_run. fold zone name.
  apply poll_running in Hp.
  by destruct (run (poll fuel project zone name) w) as [[] ?].
Qed.


Lemma bind_run_Ret_inv {A C} (m : action B A) (f : A → action B C) w c w' :
  run (m ≫= f) w = (Ret c, w') →
  ∃ a w1, run m w = (Ret a, w1) ∧ run (f a) w1 = (Ret c, w').
Proof.
  rewrite bind_run. destruct (run m w) as [[a| | | |] w1]; try discriminate.
  intros Hf. by exists a, w1.
Qed.

End poller.

(** ** Reading the live state *)

Section find.
Context `{Externals} `{MapRange} {B : Type} `{!ComputeService B}.
Implicit Types (w : World.t B) (e : Instance.t).

(** C7: when the instance get fails, [Find] returns [(nil, nil)] for a
    not-found error and an error for every other failure; the get is the
    only call it has made. *)
Theorem Find_absent e cloud w name zone err b' :
  Instance.Name e = Some name →
  Instance.Zone e = Some zone →
  Instances_Get (GCECloud.Project cloud) zone name (World.backend w) = (inl err, b') →
  run (Find e cloud) w
  = (if IsNotFound err then Ret None
     else Fail (Errorf "error listing Instances: %v" [ArgError (Some (ApiError err))]),
     {| World.backend := b';
        World.calls := World.calls w ++ [InstancesGet (GCECloud.Project cloud) zone name];
        World.changes := World.changes w |}).
Proof.
  intros Hname Hzone Hget. unfold Find. rewrite Hname, Hzone. simpl.
  rewrite Hget. simpl. by destruct (IsNotFound err).
Qed.

(** The fingerprint of the actual task is the one in the response that
    [Find] read. *)
Lemma Find_fingerprint e cloud w w' name zone r b' actual :
  Instance.Name e = Some name →
  Instance.Zone e = Some zone →
  Instances_Get (GCECloud.Project cloud) zone name (World.backend w) = (inr r, b') →
  run (Find e cloud) w = (Ret (Some actual), w') →
  Instance.metadataFingerprint actual = response_fingerprint r.
Proof.
  intros Hname Hzone Hget. unfold Find, response_fingerprint. rewrite Hname, Hzone.
  rewrite bind_run. cbn [lift run deref].
  rewrite bind_run. cbn [lift run deref].
  rewrite bind_run. cbn [call run]. rewrite Hget.
  intros Hfind.
  apply bind_run_Ret_inv in Hfind as (rtags & w1 & _ & Hfind).
  apply bind_run_Ret_inv in Hfind as ([network ipAddress] & w2 & _ & Hfind).
  apply bind_run_Ret_inv in Hfind as ([image disks] & w3 & _ & Hfind).
  destruct (compute.Instance.Metadata r); simpl in Hfind; by injection Hfind as <- _.
Qed.

End find.

(** ** The live render target *)

Section render.
Context `{Externals} `{MapRange} {B : Type} `{!ComputeService B}.
Implicit Types (w : World.t B) (e actual changes : Instance.t).

Lemma range_keys {V} (m : gomap V) : (range m).*1 ≡ₚ keys m.
Proof. destruct m as [m|]; simpl; [|done]. by rewrite map_range_perm. Qed.

(** C4: applied to a new identity, [RenderGCE] issues the insert and no
    other call: the log grows by that one call, the backend is the one the
    insert leaves, and the diff is untouched. The payload's disk list starts
    with the boot disk and goes on with one entry per entry of the [Disks]
    map. *)
Theorem RenderGCE_create fuel cloud e w i :
  let project := GCECloud.Project cloud in
  mapToGCE e project gce_ipAddressResolver = Ret i →
  ∃ zone boot rest,
    Instance.Zone e = Some zone
    ∧ World.calls (run (RenderGCE fuel cloud None e) w).2
      = World.calls w ++ [InstancesInsert project zone i]
    ∧ (run (RenderGCE fuel cloud None e) w).1
      = match (Instances_Insert project zone i (World.backend w)).1 with
        | inr _ => Ret tt
        | inl err => Fail (Errorf "error creating Instance: %v" [ArgError (Some (ApiError err))])
        end
    ∧ compute.Instance.Disks i = Some (boot :: rest)
    ∧ compute.AttachedDisk.DeviceName boot = "persistent-disks-0"
    ∧ compute.AttachedDisk.Boot boot = true
    ∧ compute.AttachedDisk.AutoDelete boot = true
    ∧ compute.AttachedDisk.Index boot = 0%Z
    ∧ compute.AttachedDisk.DeviceName <$> rest ≡ₚ keys (Instance.Disks e)
    ∧ Forall (λ d, compute.AttachedDisk.AutoDelete d = false) rest
    ∧ World.backend (run (RenderGCE fuel cloud None e) w).2
      = (Instances_Insert project zone i (World.backend w)).2
    ∧ World.changes (run (RenderGCE fuel cloud None e) w).2 = World.changes w.
Proof.
  intros project Hmap.
  destruct (mapToGCE_Ret_inv _ _ _ _ Hmap)
    as (zone & name & boot & rest & items & Hzone & _ & _ & _ & Hdisks & Hdev & Hboot
        & Hauto & Hindex & Hnames & Hrest & _).
  exists zone, boot, rest.
  split; [done|]. unfold RenderGCE. fold project. rewrite Hzone, Hmap. simpl.
  destruct (Instances_Insert project zone i (World.backend w)) as [[err|op] b']; simpl;
    repeat split; try done; by rewrite Hnames, range_keys.
Qed.

(** An update of an existing instance whose diff has metadata, when the
    mapping, the set-metadata call and its operation all succeed: one
    set-metadata call with the fingerprint of the actual task, the poll, the
    metadata field of the diff cleared, and then the zero test on what is
    left of the diff. *)
Lemma RenderGCE_update_run fuel k cloud e actual w i m zone op b1 st :
  let project := GCECloud.Project cloud in
  let metadata :=
    {| compute.Metadata.Items := payload_items i;
       compute.Metadata.Fingerprint := Instance.metadataFingerprint actual |} in
  let opzone := lastComponent (compute.Operation.Zone op) in
  let opname := compute.Operation.Name op in
  Instance.Zone e = Some zone →
  mapToGCE e project gce_ipAddressResolver = Ret i →
  Instance.Metadata (World.changes w) = Some m →
  Instances_SetMetadata project zone (compute.Instance.Name i) metadata (World.backend w)
    = (inr op, b1) →
  pending_until project opzone opname k b1 →
  (nth_poll project opzone opname k b1).1 = inr st →
  compute.Operation.Status st = "DONE" →
  compute.Operation.Error st = None →
  k < fuel →
  run (RenderGCE fuel cloud (Some actual) e) w
  = (if isZero (Instance.set_Metadata None (World.changes w)) then Ret tt
     else Fail (Errorf "Cannot apply changes to Instance: %v"
                  [ArgInstance (Instance.set_Metadata None (World.changes w))]),
     {| World.backend := (nth_poll project opzone opname k b1).2;
        World.calls :=
          World.calls w
            ++ InstancesSetMetadata project zone (compute.Instance.Name i) metadata
               :: poll_calls project opzone opname k;
        World.changes := Instance.set_Metadata None (World.changes w) |}).
Proof.
  intros project metadata opzone opname Hzone Hmap Hm Hset Hpending Hk Hdone Herr Hfuel.
  destruct (mapToGCE_Ret_inv _ _ _ _ Hmap)
    as (zone' & name & boot & rest & items & _ & _ & _ & Hmeta & _).
  assert (payload_items i = items) as Hitems by (unfold payload_items; by rewrite Hmeta).
  unfold RenderGCE. fold project. rewrite Hzone, Hmap.
  do 3 (rewrite bind_run; cbn [lift run deref get_changes]).
  rewrite bind_run. rewrite Hm, Hmeta.
  rewrite bind_run; cbn [lift run deref].
  rewrite bind_run; cbn [call run compute.Metadata.Items].
  rewrite <- Hitems. fold metadata. rewrite Hset.
  rewrite bind_run. unfold on_error_a. cbn [run].
  rewrite (waitCompletion_done project op k fuel _ st) by done.
  rewrite Herr. cbn [on_error put_changes run World.backend World.calls World.changes].
  rewrite bind_run; cbn [get_changes run World.changes].
  rewrite <- app_assoc. cbn [app].
  by destruct (isZero (Instance.set_Metadata None (World.changes w))).
Qed.

(** The same update while the operation has not been reported ["DONE"]:
    [RenderGCE] has not returned. *)
Lemma RenderGCE_update_blocks fuel cloud e actual w i m zone op b1 :
  let project := GCECloud.Project cloud in
  let metadata :=
    {| compute.Metadata.Items := payload_items i;
       compute.Metadata.Fingerprint := Instance.metadataFingerprint actual |} in
  let opzone := lastComponent (compute.Operation.Zone op) in
  let opname := compute.Operation.Name op in
  Instance.Zone e = Some zone →
  mapToGCE e project gce_ipAddressResolver = Ret i →
  Instance.Metadata (World.changes w) = Some m →
  Instances_SetMetadata project zone (compute.Instance.Name i) metadata (World.backend w)
    = (inr op, b1) →
  pending_until project opzone opname fuel b1 →
  (run (RenderGCE fuel cloud (Some actual) e) w).1 = Running.
Proof.
  intros project metadata opzone opname Hzone Hmap Hm Hset Hpending.
  destruct (mapToGCE_Ret_inv _ _ _ _ Hmap)
    as (zone' & name & boot & rest & items & _ & _ & _ & Hmeta & _).
  assert (payload_items i = items) as Hitems by (unfold payload_items; by rewrite Hmeta).
  unfold RenderGCE. fold project. rewrite Hzone, Hmap.
  do 3 (rewrite bind_run; cbn [lift run deref get_changes]).
  rewrite bind_run. rewrite Hm, Hmeta.
  rewrite bind_run; cbn [lift run deref].
  rewrite bind_run; cbn [call run compute.Metadata.Items].
  rewrite <- Hitems. fold metadata. rewrite Hset.
  rewrite bind_run. unfold on_error_a. cbn [run].
  match goal with |- context [run (waitCompletion fuel project op) ?w1] =>
    pose proof (waitCompletion_pending project op fuel w1 Hpending) as Hrun;
    destruct (run (waitCompletion fuel project op) w1) as [[] ?]
  end; simpl in Hrun; try discriminate Hrun. done.
Qed.

(** With something besides metadata in the diff, [RenderGCE] on an existing
    instance never returns success, whatever the backend answers. *)
Lemma RenderGCE_mixed_never_succeeds fuel cloud e actual w :
  Instance.Metadata (World.changes w) ≠ None →
  isZero (Instance.set_Metadata None (World.changes w)) = false →
  (run (RenderGCE fuel cloud (Some actual) e) w).1 ≠ Ret tt.
Proof.
  intros Hm Hrest. unfold RenderGCE.
  rewrite bind_run; cbn [lift run].
  destruct (deref (Instance.Zone e)) as [zone| | | |]; try done.
  rewrite bind_run; cbn [lift run].
  destruct (mapToGCE e (GCECloud.Project cloud) gce_ipAddressResolver) as [i| | | |]; try done.
  rewrite bind_run; cbn [get_changes run].
  destruct (Instance.Metadata (World.changes w)) as [m|] eqn:Hmeta; [|done].
  rewrite bind_run. rewrite bind_run; cbn [lift run].
  destruct (deref (compute.Instance.Metadata i)) as [md| | | |]; try done.
  rewrite bind_run; cbn [call run].
  match goal with |- context [Instances_SetMetadata ?p ?z ?n ?x ?b] =>
    destruct (Instances_SetMetadata p z n x b) as [[err|op] b1] end; [done|].
  rewrite bind_run. unfold on_error_a. cbn [run].
  match goal with |- context [run (waitCompletion ?f ?p op) ?w1] =>
    destruct (run (waitCompletion f p op) w1) as [[[]| | | |] w2] end; try done.
  cbn [on_error put_changes run World.changes].
  rewrite bind_run; cbn [get_changes run World.changes].
  by rewrite Hrest.
Qed.

Lemma updates_poll_calls project zone name k : updates (poll_calls project zone name k) = [].
Proof.
  unfold poll_calls, updates. induction k as [|k IH]; [done|]. simpl. apply IH.
Qed.

Lemma updates_set_metadata cs project zone name metadata opzone opname k :
  updates (cs ++ InstancesSetMetadata project zone name metadata :: poll_calls project opzone opname k)
  = updates cs ++ [InstancesSetMetadata project zone name metadata].
Proof.
  unfold updates. rewrite List.filter_app. simpl. f_equal. f_equal.
  apply updates_poll_calls.
Qed.

(** C2: an existing instance and a diff with metadata only. The actual task
    comes from a [Find] that read response [r]; the mapping, the
    set-metadata call and its operation succeed, the operation being
    reported ["DONE"] at status query [k]. Then [RenderGCE] issues one
    set-metadata call, whose payload has the fingerprint of [r]; it has not
    returned before query [k]; and once that query is made it returns no
    error, leaving the diff with a nil [Metadata]. *)
Theorem RenderGCE_metadata_only fuel k cloud e actual w0 w name zone r b0 i m op b1 st :
  let project := GCECloud.Project cloud in
  let metadata :=
    {| compute.Metadata.Items := payload_items i;
       compute.Metadata.Fingerprint := response_fingerprint r |} in
  let opzone := lastComponent (compute.Operation.Zone op) in
  let opname := compute.Operation.Name op in
  Instance.Name e = Some name →
  Instance.Zone e = Some zone →
  Instances_Get project zone name (World.backend w0) = (inr r, b0) →
  run (Find e cloud) w0 = (Ret (Some actual), w) →
  World.changes w = Instance.set_Metadata (Some m) Instance.zero →
  mapToGCE e project gce_ipAddressResolver = Ret i →
  Instances_SetMetadata project zone (compute.Instance.Name i) metadata (World.backend w)
    = (inr op, b1) →
  pending_until project opzone opname k b1 →
  (nth_poll project opzone opname k b1).1 = inr st →
  compute.Operation.Status st = "DONE" →
  compute.Operation.Error st = None →
  (k < fuel →
   ∃ w', run (RenderGCE fuel cloud (Some actual) e) w = (Ret tt, w')
         ∧ World.calls w'
           = World.calls w
               ++ InstancesSetMetadata project zone (compute.Instance.Name i) metadata
                  :: poll_calls project opzone opname k
         ∧ updates (World.calls w')
           = updates (World.calls w)
               ++ [InstancesSetMetadata project zone (compute.Instance.Name i) metadata]
         ∧ Instance.Metadata (World.changes w') = None
         ∧ World.backend w' = (nth_poll project opzone opname k b1).2)
  ∧ (fuel ≤ k → (run (RenderGCE fuel cloud (Some actual) e) w).1 = Running).
Proof.
  intros project metadata opzone opname Hname Hzone Hget Hfind Hchanges Hmap Hset
    Hpending Hk Hdone Herr.
  pose proof (Find_fingerprint _ _ _ _ _ _ _ _ _ Hname Hzone Hget Hfind) as Hfp.
  unfold metadata in *. rewrite <- Hfp in *.
  assert (Instance.Metadata (World.changes w) = Some m) as Hm by (by rewrite Hchanges).
  split.
  - intros Hfuel. eexists. split; [|split; [|split; [|split]]].
    + rewrite (RenderGCE_update_run fuel k cloud e actual w i m zone op b1 st
                 Hzone Hmap Hm Hset Hpending Hk Hdone Herr Hfuel).
      rewrite Hchanges. reflexivity.
    + done.
    + apply updates_set_metadata.
    + done.
    + done.
  - intros Hfuel.
    apply (RenderGCE_update_blocks fuel cloud e actual w i m zone op b1 Hzone Hmap Hm Hset).
    intros j Hj. apply Hpending. lia.
Qed.

(** C1, as the code has it: an existing instance and a diff with metadata
    and something else. When the mapping, the set-metadata call and its
    operation succeed, [RenderGCE] fails with the unsupported-change error
    that carries what is left of the diff, and it does so after the
    set-metadata call has been issued and polled to completion. Whatever
    the backend answers, it does not return success. *)
Theorem RenderGCE_mixed_changes fuel k cloud e actual w i m zone op b1 st :
  let project := GCECloud.Project cloud in
  let metadata :=
    {| compute.Metadata.Items := payload_items i;
       compute.Metadata.Fingerprint := Instance.metadataFingerprint actual |} in
  let opzone := lastComponent (compute.Operation.Zone op) in
  let opname := compute.Operation.Name op in
  Instance.Metadata (World.changes w) = Some m →
  isZero (Instance.set_Metadata None (World.changes w)) = false →
  (run (RenderGCE fuel cloud (Some actual) e) w).1 ≠ Ret tt
  ∧ (Instance.Zone e = Some zone →
     mapToGCE e project gce_ipAddressResolver = Ret i →
     Instances_SetMetadata project zone (compute.Instance.Name i) metadata (World.backend w)
       = (inr op, b1) →
     pending_until project opzone opname k b1 →
     (nth_poll project opzone opname k b1).1 = inr st →
     compute.Operation.Status st = "DONE" →
     compute.Operation.Error st = None →
     k < fuel →
     ∃ w', run (RenderGCE fuel cloud (Some actual) e) w
           = (Fail (Errorf "Cannot apply changes to Instance: %v"
                      [ArgInstance (Instance.set_Metadata None (World.changes w))]), w')
           ∧ updates (World.calls w')
             = updates (World.calls w)
                 ++ [InstancesSetMetadata project zone (compute.Instance.Name i) metadata]
           ∧ World.backend w' = (nth_poll project opzone opname k b1).2
           ∧ World.changes w' = Instance.set_Metadata None (World.changes w)).
Proof.
  intros project metadata opzone opname Hm Hrest. split.
  - apply RenderGCE_mixed_never_succeeds; [by rewrite Hm|done].
  - intros Hzone Hmap Hset Hpending Hk Hdone Herr Hfuel. eexists. split; [|split; [|split]].
    + rewrite (RenderGCE_update_run fuel k cloud e actual w i m zone op b1 st
                 Hzone Hmap Hm Hset Hpending Hk Hdone Herr Hfuel).
      by rewrite Hrest.
    + apply updates_set_metadata.
    + done.
    + done.
Qed.

End render.

(** ** The properties on the sample instances *)

Lemma scope_alias_round_trip_witness :
  scopeToShortForm (H:=canonical_range) (expandScopeAlias "compute-rw") = "compute-rw"
  ∧ expandScopeAlias
      (scopeToShortForm (H:=canonical_range) "https://www.googleapis.com/auth/logging.write")
    = "https://www.googleapis.com/auth/logging.write"
  ∧ expandScopeAlias "cloud-platform" = "cloud-platform"
  ∧ scopeToShortForm (H:=canonical_range) "cloud-platform" = "cloud-platform".
Proof.
  destruct (scope_alias_round_trip (H:=canonical_range)) as (_ & Ha & Hu & Hs).
  split; [|split].
  - apply Ha. apply (bool_decide_unpack _). vm_compute. exact I.
  - apply Hu. apply (bool_decide_unpack _). vm_compute. exact I.
  - apply Hs; apply (bool_decide_unpack _); vm_compute; exact I.
Defined.

Lemma isZero_empty_and_single_field_witness :
  isZero (H:=sample_externals) metadata_only_changes = false.
Proof.
  apply (proj2 (isZero_empty_and_single_field (H:=sample_externals))).
  do 10 right. left. simpl. discriminate.
Defined.

Lemma mapToGCE_nil_fields_witness :
  returns (mapToGCE (H:=sample_externals) (H0:=canonical_range) sample_instance "p"
             gce_ipAddressResolver).
Proof.
  apply (mapToGCE_nil_fields (H:=sample_externals) (H0:=canonical_range) sample_instance "p"
           gce_ipAddressResolver); simpl; try discriminate.
  - exists "debian-8". split; [reflexivity|]. vm_compute. lia.
  - intros disks k d [= <-] Hk. apply lookup_singleton_Some in Hk as [_ <-].
    vm_compute. eexists. reflexivity.
Defined.

(** C9 as stated fails in both directions: an instance with the five
    fields set faults on its nameless subnet, and an instance without
    [CanIPForward] gets an error back, not a fault. *)
Lemma mapToGCE_precondition_fails :
  (Instance.Zone unnamed_subnet_instance ≠ None
   ∧ Instance.Image unnamed_subnet_instance ≠ None
   ∧ Instance.CanIPForward unnamed_subnet_instance ≠ None
   ∧ Instance.MachineType unnamed_subnet_instance ≠ None
   ∧ Instance.Name unnamed_subnet_instance ≠ None
   ∧ mapToGCE (H0:=canonical_range) unnamed_subnet_instance "p" gce_ipAddressResolver
     = Panic nil_dereference)
  ∧ (Instance.CanIPForward unresolved_address_instance = None
     ∧ mapToGCE (H0:=canonical_range) unresolved_address_instance "p" gce_ipAddressResolver
       = Fail (Errorf "instance IP address has not yet been created" [])).
Proof. repeat split; try discriminate; vm_compute; reflexivity. Qed.

Lemma Find_absent_witness :
  run (Find (H0:=canonical_range) (ComputeService0:=Scripted.service) sample_instance sample_cloud)
      (sample_world None 0 None Instance.zero)
  = (Ret None,
     {| World.backend := Scripted.init None 0 None;
        World.calls := [InstancesGet "p" "z" "master"];
        World.changes := Instance.zero |}).
Proof.
  apply (Find_absent (H0:=canonical_range) (ComputeService0:=Scripted.service)
           sample_instance sample_cloud (sample_world None 0 None Instance.zero)
           "master" "z" true (Scripted.init None 0 None)); reflexivity.
Defined.

Lemma RenderGCE_create_witness :
  ∃ i zone boot rest,
    Instance.Zone sample_instance = Some zone
    ∧ World.calls
        (run (RenderGCE (H0:=canonical_range) (ComputeService0:=Scripted.service)
                3 sample_cloud None sample_instance)
             (sample_world None 0 None Instance.zero)).2
      = [InstancesInsert "p" zone i]
    ∧ compute.Instance.Disks i = Some (boot :: rest)
    ∧ compute.AttachedDisk.DeviceName boot = "persistent-disks-0"
    ∧ compute.AttachedDisk.DeviceName <$> rest ≡ₚ keys (Instance.Disks sample_instance)
    ∧ World.backend
        (run (RenderGCE (H0:=canonical_range) (ComputeService0:=Scripted.service)
                3 sample_cloud None sample_instance)
             (sample_world None 0 None Instance.zero)).2
      = (Instances_Insert (ComputeService:=Scripted.service) "p" zone i
           (Scripted.init None 0 None)).2.
Proof.
  eexists.
  edestruct (RenderGCE_create (H0:=canonical_range) (ComputeService0:=Scripted.service)
               3 sample_cloud sample_instance (sample_world None 0 None Instance.zero))
    as (zone & boot & rest & Hzone & Hcalls & _ & Hdisks & Hdev & _ & _ & _ & Hrest & _
        & Hbackend & _).
  - vm_compute. reflexivity.
  - exists zone, boot, rest.
    split; [exact Hzone|]. split; [exact Hcalls|]. split; [exact Hdisks|].
    split; [exact Hdev|]. split; [exact Hrest|exact Hbackend].
Defined.

(** The scripted backend after the create pass holds the instance. *)
Lemma RenderGCE_create_sample :
  length
    (Scripted.created
       (World.backend
          (run (RenderGCE (H0:=canonical_range) (ComputeService0:=Scripted.service)
                  3 sample_cloud None sample_instance)
               (sample_world None 0 None Instance.zero)).2)) = 1.
Proof. vm_compute. reflexivity. Qed.

Lemma RenderGCE_metadata_only_witness :
  ∃ w', run (RenderGCE (H0:=canonical_range) (ComputeService0:=Scripted.service)
               5 sample_cloud (Some sample_actual) sample_instance)
            (world_after_find 2 None metadata_only_changes) = (Ret tt, w')
        ∧ Instance.Metadata (World.changes w') = None.
Proof.
  edestruct (RenderGCE_metadata_only (H0:=canonical_range) (ComputeService0:=Scripted.service)
               5 2 sample_cloud sample_instance sample_actual
               (world_before_find 2 None metadata_only_changes)
               (world_after_find 2 None metadata_only_changes)
               "master" "z" sample_response) as [Hdone _].
  - reflexivity.
  - reflexivity.
  - vm_compute. reflexivity.
  - vm_compute. reflexivity.
  - vm_compute. reflexivity.
  - vm_compute. reflexivity.
  - vm_compute. reflexivity.
  - intros j Hj. destruct j as [|[|j]]; [eexists; split; [vm_compute; reflexivity|discriminate]..|lia].
  - vm_compute. reflexivity.
  - reflexivity.
  - reflexivity.
  - destruct Hdone as (w' & Hrun & _ & _ & Hmeta & _); [lia|].
    exists w'. split; [exact Hrun|exact Hmeta].
Defined.

Lemma RenderGCE_mixed_changes_witness :
  ∃ w', run (RenderGCE (H0:=canonical_range) (ComputeService0:=Scripted.service)
               5 sample_cloud (Some sample_actual) sample_instance)
            (world_after_find 2 None mixed_changes)
        = (Fail (Errorf "Cannot apply changes to Instance: %v"
                   [ArgInstance (Instance.set_Metadata None mixed_changes)]), w')
        ∧ updates (World.calls w')
          = [InstancesSetMetadata "p" "z" "master"
               {| compute.Metadata.Items :=
                    Some [ {| compute.MetadataItems.Key := "startup-script";
                              compute.MetadataItems.Value := Some "#!/bin/bash" |} ];
                  compute.Metadata.Fingerprint := "fp-1" |}].
Proof.
  edestruct (RenderGCE_mixed_changes (H0:=canonical_range) (ComputeService0:=Scripted.service)
               5 2 sample_cloud sample_instance sample_actual
               (world_after_find 2 None mixed_changes)) as [_ Hfail].
  - vm_compute. reflexivity.
  - vm_compute. reflexivity.
  - edestruct Hfail as (w' & Hrun & Hupdates & _).
    + reflexivity.
    + vm_compute. reflexivity.
    + vm_compute. reflexivity.
    + intros j Hj.
      destruct j as [|[|j]]; [eexists; split; [vm_compute; reflexivity|discriminate]..|lia].
    + vm_compute. reflexivity.
    + reflexivity.
    + reflexivity.
    + lia.
    + exists w'. split; [exact Hrun|exact Hupdates].
Defined.

(** C1 as stated fails: the pass that ends in the unsupported-change error
    has written the metadata, and the backend is not in the state it
    started in. *)
Lemma RenderGCE_mixed_changes_partial_update :
  (run (RenderGCE (H0:=canonical_range) (ComputeService0:=Scripted.service)
          5 sample_cloud (Some sample_actual) sample_instance)
       (world_after_find 0 None mixed_changes)).1
  = Fail (Errorf "Cannot apply changes to Instance: %v"
            [ArgInstance (Instance.set_Metadata None mixed_changes)])
  ∧ Scripted.metadata (World.backend (world_after_find 0 None mixed_changes)) = None
  ∧ Scripted.metadata
      (World.backend
         (run (RenderGCE (H0:=canonical_range) (ComputeService0:=Scripted.service)
                 5 sample_cloud (Some sample_actual) sample_instance)
              (world_after_find 0 None mixed_changes)).2)
    = Some {| compute.Metadata.Items :=
                Some [ {| compute.MetadataItems.Key := "startup-script";
                          compute.MetadataItems.Value := Some "#!/bin/bash" |} ];
              compute.Metadata.Fingerprint := "fp-1" |}.
Proof. split; [|split]; vm_compute; reflexivity. Qed.

(** C3, where the code departs from it: the operation is ["DONE"] and its
    error record holds an empty list; [waitCompletion] indexes the list at 0
    and panics instead of returning success. *)
Theorem waitCompletion_empty_error_list :
  (run (waitCompletion (ComputeService0:=Scripted.service) 3 "p"
          (Scripted.operation "PENDING" None))
       (sample_world None 1 (Some {| compute.OperationError.Errors := Some [] |})
          Instance.zero)).1
  = Panic index_out_of_range.
Proof. vm_compute. reflexivity. Qed.

(** The poller on the scripted service: success after two pending answers,
    the first message of a failed operation, and still running when the
    fuel ends before the operation does. *)
Lemma waitCompletion_samples :
  (run (waitCompletion (ComputeService0:=Scripted.service) 5 "p"
          (Scripted.operation "PENDING" None))
       (sample_world None 2 None Instance.zero)).1 = Ret tt
  ∧ (run (waitCompletion (ComputeService0:=Scripted.service) 5 "p"
            (Scripted.operation "PENDING" None))
         (sample_world None 2
            (Some {| compute.OperationError.Errors :=
                       Some [ {| compute.OperationErrorErrors.Message := "quota exceeded" |};
                              {| compute.OperationErrorErrors.Message := "second" |} ] |})
            Instance.zero)).1
    = Fail (Errorf "operation failed: %v" [ArgString "quota exceeded"])
  ∧ (run (waitCompletion (ComputeService0:=Scripted.service) 2 "p"
            (Scripted.operation "PENDING" None))
         (sample_world None 2 None Instance.zero)).1 = Running.
Proof. split; [|split]; vm_compute; reflexivity. Qed.

(** * Further properties of the task *)

(** ** Scope forms and image specs *)

(** X2: expanding and shortening are idempotent, and each undoes what the
    other adds: a scope that went through [Find] (shortened) and then
    through [mapToGCE] (expanded) is the scope expanded once. This holds for
    every string and every order of ranging over the table. *)
Theorem scope_forms_compose `{MapRange} (s : string) :
  expandScopeAlias (expandScopeAlias s) = expandScopeAlias s
  ∧ scopeToShortForm (scopeToShortForm s) = scopeToShortForm s
  ∧ expandScopeAlias (scopeToShortForm (expandScopeAlias s)) = expandScopeAlias s
  ∧ scopeToShortForm (expandScopeAlias (scopeToShortForm s)) = scopeToShortForm s.
Proof.
  rewrite !scopeToShortForm_table.
  destruct (decide (s ∈ aliases)) as [Ha|Ha].
  { unfold aliases in Ha. simpl in Ha.
    repeat (apply elem_of_cons in Ha as [->|Ha]; [by vm_compute|]).
    by apply elem_of_nil in Ha. }
  destruct (decide (s ∈ uris)) as [Hu|Hu].
  { unfold uris in Hu. simpl in Hu.
    repeat (apply elem_of_cons in Hu as [->|Hu]; [by vm_compute|]).
    by apply elem_of_nil in Hu. }
  pose proof (expandScopeAlias_unknown s Ha) as He.
  pose proof (first_key_of_None s scope_table Hu) as Hf.
  repeat (rewrite ?He, ?Hf; cbn [from_option]). done.
Qed.

Lemma length_Split s : length (Split s) = S (slashes s).
Proof.
  induction s as [|c s IH]; [done|]. simpl.
  destruct (Ascii.eqb c slash); simpl; [by rewrite IH|].
  destruct (Split s) as [|t ts]; simpl in *; [discriminate IH|done].
Qed.

(** X3: [BuildImageURL] never returns an error: it returns a URL when the
    spec has at most one slash and leaves the process through [glog.Exitf]
    as soon as the spec has two. *)
Theorem BuildImageURL_exit `{Externals} (defaultProject nameSpec : string) :
  (slashes nameSpec ≤ 1 → ∃ url, BuildImageURL defaultProject nameSpec = Ret url)
  ∧ (2 ≤ slashes nameSpec →
     BuildImageURL defaultProject nameSpec = Exit "Cannot parse image spec: %q" [nameSpec]).
Proof.
  pose proof (length_Split nameSpec) as Hlen. unfold BuildImageURL.
  destruct (Split nameSpec) as [|t0 [|t1 [|t2 ts]]]; simpl in *; split; intros Hs;
    try lia; try by eexists.
Qed.

Lemma BuildImageURL_exit_witness :
  (∃ url, BuildImageURL (H:=sample_externals) "p" "debian-cloud/debian-8" = Ret url)
  ∧ BuildImageURL (H:=sample_externals) "p" "a/b/c" = Exit "Cannot parse image spec: %q" ["a/b/c"].
Proof.
  split.
  - apply (BuildImageURL_exit (H:=sample_externals) "p" "debian-cloud/debian-8"). vm_compute. lia.
  - apply (BuildImageURL_exit (H:=sample_externals) "p" "a/b/c"). vm_compute. lia.
Defined.

(** X4: a spec that names its project does not depend on the default
    project: it gives the URL of the bare name in the named project. *)
Theorem BuildImageURL_qualified_spec `{Externals} (defaultProject project name : string) :
  slash_free project = true → slash_free name = true →
  BuildImageURL defaultProject (project +:+ "/" +:+ name) = BuildImageURL project name
  ∧ BuildImageURL project name
    = Ret ("https://www.googleapis.com/compute/v1/projects/" +:+ project
             +:+ "/global/images/" +:+ name).
Proof.
  intros Hp Hn. by rewrite BuildImageURL_qualified, BuildImageURL_bare.
Qed.

Lemma BuildImageURL_qualified_spec_witness :
  BuildImageURL (H:=sample_externals) "p" "debian-cloud/debian-8"
  = BuildImageURL (H:=sample_externals) "debian-cloud" "debian-8".
Proof.
  apply (BuildImageURL_qualified_spec (H:=sample_externals) "p" "debian-cloud" "debian-8");
    reflexivity.
Defined.

(** ** The mapped payload *)

Lemma foldl_append {A B} (f : A → B) (l : list A) (acc : slice B) :
  foldl (λ s a, append s (f a)) acc l
  = match l with [] => acc | _ => Some (elems acc ++ (f <$> l)) end.
Proof.
  revert acc. induction l as [|a l IH]; intros acc; [done|]. simpl.
  rewrite IH. destruct l; simpl; [done|]. by rewrite <- app_assoc.
Qed.

Ltac invert_mapToGCE Hmap :=
  let zone := fresh "zone" in let image := fresh "image" in
  let sourceImage := fresh "sourceImage" in let disks := fresh "disks" in
  let nis := fresh "nis" in let items := fresh "items" in
  let canIpForward := fresh "canIpForward" in let machineType := fresh "machineType" in
  let name := fresh "name" in
  let Hzone := fresh "Hzone" in let Himage := fresh "Himage" in
  let Hsource := fresh "Hsource" in let Hdisks := fresh "Hdisks" in
  let Hnis := fresh "Hnis" in let Hitems := fresh "Hitems" in
  let Hcan := fresh "Hcan" in let Hmt := fresh "Hmt" in let Hname := fresh "Hname" in
  unfold mapToGCE in Hmap;
  apply bind_Ret_inv in Hmap as (zone & Hzone%deref_Ret_inv & Hmap);
  apply bind_Ret_inv in Hmap as (image & Himage%deref_Ret_inv & Hmap);
  apply bind_Ret_inv in Hmap as (sourceImage & Hsource & Hmap);
  apply bind_Ret_inv in Hmap as (disks & Hdisks & Hmap);
  apply bind_Ret_inv in Hmap as (nis & Hnis & Hmap);
  apply bind_Ret_inv in Hmap as (items & Hitems & Hmap);
  apply bind_Ret_inv in Hmap as (canIpForward & Hcan%deref_Ret_inv & Hmap);
  apply bind_Ret_inv in Hmap as (machineType & Hmt%deref_Ret_inv & Hmap);
  apply bind_Ret_inv in Hmap as (name & Hname%deref_Ret_inv & Hmap);
  injection Hmap as <-.

(** X6: the scalar part of a mapped payload. The name, the forwarding flag
    and the tags are the task's; the machine type is the URL of the task's
    machine type in the task's zone; the payload's own zone field is left
    empty and its metadata has no fingerprint yet; a preemptible task is
    terminated on host maintenance and not restarted, any other task
    (preemptible nil or false) is migrated and restarted. *)
Theorem mapToGCE_payload_fields `{Externals} `{MapRange} (e : Instance.t) project resolver i :
  mapToGCE e project resolver = Ret i →
  Instance.Name e = Some (compute.Instance.Name i)
  ∧ Instance.CanIPForward e = Some (compute.Instance.CanIpForward i)
  ∧ (∃ zone machineType,
       Instance.Zone e = Some zone ∧ Instance.MachineType e = Some machineType
       ∧ compute.Instance.MachineType i = BuildMachineTypeURL project zone machineType)
  ∧ compute.Instance.Zone i = ""
  ∧ compute.Instance.Tags i
    = match Instance.Tags e with
      | Some items => Some {| compute.Tags.Items := Some items |}
      | None => None
      end
  ∧ compute.Instance.Scheduling i
    = Some (match Instance.Preemptible e with
            | Some true =>
                {| compute.Scheduling.AutomaticRestart := false;
                   compute.Scheduling.OnHostMaintenance := "TERMINATE";
                   compute.Scheduling.Preemptible := true |}
            | _ =>
                {| compute.Scheduling.AutomaticRestart := true;
                   compute.Scheduling.OnHostMaintenance := "MIGRATE";
                   compute.Scheduling.Preemptible := false |}
            end)
  ∧ (compute.Metadata.Fingerprint <$> compute.Instance.Metadata i) = Some "".
Proof.
  intros Hmap. invert_mapToGCE Hmap. simpl.
  split; [done|]. split; [done|]. split; [by eexists _, _|]. split; [done|].
  split; [done|]. split; [|done].
  by destruct (Instance.Preemptible e) as [[]|].
Qed.

Lemma mapToGCE_payload_fields_witness :
  ∃ i, mapToGCE (H:=sample_externals) (H0:=canonical_range) addressed_instance "p"
         gce_ipAddressResolver = Ret i
       ∧ compute.Instance.Scheduling i
         = Some {| compute.Scheduling.AutomaticRestart := false;
                   compute.Scheduling.OnHostMaintenance := "TERMINATE";
                   compute.Scheduling.Preemptible := true |}
       ∧ compute.Instance.Zone i = "".
Proof.
  eexists. split; [vm_compute; reflexivity|].
  edestruct (mapToGCE_payload_fields (H:=sample_externals) (H0:=canonical_range)
               addressed_instance "p" gce_ipAddressResolver)
    as (_ & _ & _ & Hzone & _ & Hsched & _); [vm_compute; reflexivity|].
  split; [exact Hsched|exact Hzone].
Defined.

(** X7: the service accounts of a mapped payload. Without [Scopes] there is
    none; with [Scopes], even empty, there is exactly the account
    ["default"], carrying each scope in its long form, in order, and a nil
    scope list when [Scopes] is empty. *)
Theorem mapToGCE_service_accounts `{Externals} `{MapRange} (e : Instance.t) project resolver i :
  mapToGCE e project resolver = Ret i →
  compute.Instance.ServiceAccounts i
  = match Instance.Scopes e with
    | None => None
    | Some ss =>
        Some [ {| compute.ServiceAccount.Email := "default";
                  compute.ServiceAccount.Scopes := appended (expandScopeAlias <$> ss) |} ]
    end.
Proof.
  intros Hmap. invert_mapToGCE Hmap. simpl.
  destruct (Instance.Scopes e) as [ss|]; [|done].
  rewrite (foldl_append expandScopeAlias). by destruct ss.
Qed.

Lemma mapToGCE_service_accounts_witness :
  ∃ i, mapToGCE (H:=sample_externals) (H0:=canonical_range) sample_instance "p"
         gce_ipAddressResolver = Ret i
       ∧ compute.Instance.ServiceAccounts i
         = Some [ {| compute.ServiceAccount.Email := "default";
                     compute.ServiceAccount.Scopes :=
                       Some [ "https://www.googleapis.com/auth/compute";
                              "https://www.googleapis.com/auth/devstorage.read_only" ] |} ].
Proof.
  eexists. split; [vm_compute; reflexivity|].
  erewrite (mapToGCE_service_accounts (H:=sample_externals) (H0:=canonical_range)
              sample_instance "p" gce_ipAddressResolver); [|vm_compute; reflexivity].
  reflexivity.
Defined.

Lemma foldlM_metadata `{Externals} (l : list (string * Resource)) acc r :
  foldlM (λ metadataItems '(key, r),
            v ← on_error (api (ResourceAsString r))
                  (λ err, Errorf "error rendering Instance metadata %q: %v"
                            [ArgString key; ArgError (Some err)]);
            Ret (append metadataItems
              {| compute.MetadataItems.Key := key;
                 compute.MetadataItems.Value := String_ v |})) acc l = Ret r →
  ∃ items,
    r = match l with [] => acc | _ => Some (elems acc ++ items) end
    ∧ Forall2 (λ item kr, compute.MetadataItems.Key item = kr.1
                          ∧ ∃ v, ResourceAsString kr.2 = inr v
                                 ∧ compute.MetadataItems.Value item = Some v) items l.
Proof.
  revert acc. induction l as [|[key res] l IH]; intros acc Hfold; simpl in Hfold.
  - injection Hfold as <-. by exists [].
  - apply bind_Ret_inv in Hfold as (acc' & Hstep & Hfold).
    apply bind_Ret_inv in Hstep as (v & Hv & Hstep). injection Hstep as <-.
    destruct (ResourceAsString res) as [err|v'] eqn:Hres; [discriminate Hv|].
    injection Hv as ->.
    apply IH in Hfold as (items & -> & Hitems).
    eexists (_ :: items). split.
    + destruct l; simpl.
      * inversion Hitems. by subst.
      * by rewrite <- app_assoc.
    + constructor; [|done]. simpl. split; [done|]. by exists v.
Qed.

(** The metadata items of a payload against the entries ranged over. *)
Lemma mapToGCE_metadata_inv `{Externals} `{MapRange} (e : Instance.t) project resolver i :
  mapToGCE e project resolver = Ret i →
  ∃ items,
    compute.Instance.Metadata i
    = Some {| compute.Metadata.Items := appended items; compute.Metadata.Fingerprint := "" |}
    ∧ Forall2 (λ item kr, compute.MetadataItems.Key item = kr.1
                          ∧ ∃ v, ResourceAsString kr.2 = inr v
                                 ∧ compute.MetadataItems.Value item = Some v)
        items (range (Instance.Metadata e)).
Proof.
  intros Hmap. invert_mapToGCE Hmap. simpl.
  apply foldlM_metadata in Hitems as (its & -> & Hall). exists its.
  split; [|done].
  destruct (range (Instance.Metadata e)); [by inversion Hall|].
  inversion Hall; by subst.
Qed.

(** X8: the metadata of a mapped payload has one item per entry of the
    task's [Metadata], in the order the map was ranged: the item's key is
    the entry's key and its value is the entry's resource rendered by
    [fi.ResourceAsString], which therefore succeeded on every entry; the
    item list is nil when there is no entry. *)
Theorem mapToGCE_metadata_items `{Externals} `{MapRange} (e : Instance.t) project resolver i :
  mapToGCE e project resolver = Ret i →
  ∃ items,
    compute.Instance.Metadata i
    = Some {| compute.Metadata.Items := appended items; compute.Metadata.Fingerprint := "" |}
    ∧ Forall2 (λ item kr, compute.MetadataItems.Key item = kr.1
                          ∧ ∃ v, ResourceAsString kr.2 = inr v
                                 ∧ compute.MetadataItems.Value item = Some v)
        items (range (Instance.Metadata e))
    ∧ compute.MetadataItems.Key <$> items ≡ₚ keys (Instance.Metadata e)
    ∧ length items = length (keys (Instance.Metadata e)).
Proof.
  intros Hmap. apply mapToGCE_metadata_inv in Hmap as (its & Hmeta & Hall). exists its.
  split; [done|]. split; [done|].
  assert (compute.MetadataItems.Key <$> its ≡ₚ keys (Instance.Metadata e)) as Hkeys.
  { rewrite <- range_keys.
    assert (compute.MetadataItems.Key <$> its = (range (Instance.Metadata e)).*1) as ->; [|done].
    clear Hmeta. induction Hall as [|item kr its' l' [Hk _] _ IH]; [done|].
    rewrite !fmap_cons. f_equal; [exact Hk|exact IH]. }
  split; [done|]. by rewrite <- Hkeys, length_fmap.
Qed.

Lemma mapToGCE_metadata_items_witness :
  ∃ i, mapToGCE (H:=sample_externals) (H0:=canonical_range) sample_instance "p"
         gce_ipAddressResolver = Ret i
       ∧ ∃ items,
           compute.Instance.Metadata i
           = Some {| compute.Metadata.Items := appended items;
                     compute.Metadata.Fingerprint := "" |}
           ∧ compute.MetadataItems.Key <$> items ≡ₚ keys (Instance.Metadata sample_instance).
Proof.
  eexists. split; [vm_compute; reflexivity|].
  edestruct (mapToGCE_metadata_items (H:=sample_externals) (H0:=canonical_range)
               sample_instance "p" gce_ipAddressResolver) as (items & Hmeta & _ & Hkeys & _);
    [vm_compute; reflexivity|].
  exists items. split; [exact Hmeta|exact Hkeys].
Defined.

(** X11: if some resource of the task's [Metadata] cannot be rendered,
    [mapToGCE] returns no payload. *)
Theorem mapToGCE_unreadable_metadata `{Externals} `{MapRange} (e : Instance.t) project resolver
    m key r err :
  Instance.Metadata e = Some m → m !! key = Some r → ResourceAsString r = inl err →
  ∀ i, mapToGCE e project resolver ≠ Ret i.
Proof.
  intros Hm Hkey Herr i Hmap.
  apply mapToGCE_metadata_inv in Hmap as (items & _ & Hall).
  assert ((key, r) ∈ range (Instance.Metadata e)) as Hin.
  { apply elem_of_range. by exists m. }
  apply list_elem_of_lookup in Hin as [n Hn].
  destruct (Forall2_lookup_r _ _ _ _ _ Hall Hn) as (item & _ & _ & v & Hv & _).
  simpl in Hv. congruence.
Qed.

Lemma mapToGCE_unreadable_metadata_witness :
  mapToGCE (H:=sample_externals) (H0:=canonical_range) unreadable_metadata_instance "p"
    gce_ipAddressResolver
  ≠ Ret {| compute.Instance.CanIpForward := true; compute.Instance.Disks := None;
           compute.Instance.MachineType := ""; compute.Instance.Metadata := None;
           compute.Instance.Name := "master"; compute.Instance.NetworkInterfaces := None;
           compute.Instance.Scheduling := None; compute.Instance.ServiceAccounts := None;
           compute.Instance.Tags := None; compute.Instance.Zone := "" |}.
Proof.
  apply (mapToGCE_unreadable_metadata (H:=sample_externals) (H0:=canonical_range)
           unreadable_metadata_instance "p" gce_ipAddressResolver
           {[ "startup-script" := None ]} "startup-script" None false).
  - reflexivity.
  - apply lookup_singleton_eq.
  - reflexivity.
Defined.

(** X9: with an [IPAddress], a mapped payload has exactly one network
    interface: its one access config is a one-to-one NAT on the address the
    resolver returned, its network is the URL of the task's [Network], and
    its subnetwork is the name of the task's [Subnet], or empty without
    one. *)
Theorem mapToGCE_network_interface `{Externals} `{MapRange} (e : Instance.t) project resolver
    ip i :
  Instance.IPAddress e = Some ip →
  mapToGCE e project resolver = Ret i →
  ∃ natIP network subnetwork,
    resolver ip = Ret (Some natIP)
    ∧ Network_URL (Instance.Network e) project = Some network
    ∧ match Instance.Subnet e with
      | Some subnet => Subnet.Name subnet = Some subnetwork
      | None => subnetwork = ""
      end
    ∧ compute.Instance.NetworkInterfaces i
      = Some [ {| compute.NetworkInterface.AccessConfigs :=
                    Some [ {| compute.AccessConfig.NatIP := natIP;
                              compute.AccessConfig.Type_ := "ONE_TO_ONE_NAT" |} ];
                  compute.NetworkInterface.Network := network;
                  compute.NetworkInterface.Subnetwork := subnetwork |} ].
Proof.
  intros Hip Hmap. invert_mapToGCE Hmap. simpl. rewrite Hip in Hnis.
  apply bind_Ret_inv in Hnis as (addr & Haddr & Hnis).
  destruct (resolver ip) as [a| | | |] eqn:Hres; try discriminate Haddr.
  injection Haddr as ->. destruct addr as [natIP|]; [|discriminate Hnis].
  apply bind_Ret_inv in Hnis as (network & Hnet & Hnis).
  apply bind_Ret_inv in Hnis as (subnetwork & Hsub & Hnis). injection Hnis as <-.
  exists natIP, network, subnetwork. split; [done|]. split.
  - by destruct (Network_URL (Instance.Network e) project); [injection Hnet as ->|].
  - split; [|done]. destruct (Instance.Subnet e) as [subnet|].
    + by apply deref_Ret_inv.
    + by injection Hsub as <-.
Qed.

Lemma mapToGCE_network_interface_witness :
  ∃ i, mapToGCE (H:=sample_externals) (H0:=canonical_range) addressed_instance "p"
         gce_ipAddressResolver = Ret i
       ∧ compute.Instance.NetworkInterfaces i
         = Some [ {| compute.NetworkInterface.AccessConfigs :=
                       Some [ {| compute.AccessConfig.NatIP := "203.0.113.7";
                                 compute.AccessConfig.Type_ := "ONE_TO_ONE_NAT" |} ];
                     compute.NetworkInterface.Network :=
                       "https://www.googleapis.com/compute/v1/projects/p/global/networks/default";
                     compute.NetworkInterface.Subnetwork := "subnet-1" |} ].
Proof.
  eexists. split; [vm_compute; reflexivity|].
  edestruct (mapToGCE_network_interface (H:=sample_externals) (H0:=canonical_range)
               addressed_instance "p" gce_ipAddressResolver)
    as (natIP & network & subnetwork & Hres & Hnet & Hsub & Hnis);
    [reflexivity|vm_compute; reflexivity|].
  vm_compute in Hres, Hnet, Hsub.
  injection Hres as <-. injection Hnet as <-. injection Hsub as <-. exact Hnis.
Defined.

(** X10: a task whose address is not resolved yet is not mapped: when zone,
    image and disks raise no fault and the resolver returns a nil address,
    [mapToGCE] returns the error that the address has not been created; when
    the resolver returns an error, that error is returned wrapped. No other
    field of the task is looked at. *)
Theorem mapToGCE_unresolved_address `{Externals} `{MapRange} (e : Instance.t) project resolver
    zone image ip :
  Instance.Zone e = Some zone →
  Instance.Image e = Some image →
  slashes image ≤ 1 →
  (∀ disks k d, Instance.Disks e = Some disks → disks !! k = Some d →
     is_Some (PersistentDisk_URL d project)) →
  Instance.IPAddress e = Some ip →
  (resolver ip = Ret None →
   mapToGCE e project resolver
   = Fail (Errorf "instance IP address has not yet been created" []))
  ∧ (∀ err, resolver ip = Fail err →
     mapToGCE e project resolver
     = Fail (Errorf "unable to resolve IP for instance: %v" [ArgError (Some err)])).
Proof.
  intros Hzone Himage Hslashes Hdisks Hip.
  assert (∀ o, resolver ip = o → (∀ a, o ≠ Ret (Some a)) → returns o →
            mapToGCE e project resolver
            = match o with
              | Ret _ => Fail (Errorf "instance IP address has not yet been created" [])
              | Fail err =>
                  Fail (Errorf "unable to resolve IP for instance: %v" [ArgError (Some err)])
              | _ => Running
              end) as Hgen.
  { intros o Ho Hnone Hret. unfold mapToGCE. rewrite Hzone, Himage.
    cbn [deref mbind outcome_bind].
    destruct (BuildImageURL_returns project image) as [url ->]; [rewrite length_Split; lia|].
    cbn [mbind outcome_bind].
    edestruct (foldlM_disks_returns project (range (Instance.Disks e))) as [disks ->].
    { intros k d (m & Hm & Hk)%elem_of_range. by eapply Hdisks. }
    cbn [mbind outcome_bind]. rewrite Hip, Ho.
    destruct o as [[a|]| | | |]; simpl in *; try done. by destruct (Hnone a). }
  split.
  - intros Hres. by apply (Hgen _ Hres).
  - intros err Hres. by apply (Hgen _ Hres).
Qed.

Lemma mapToGCE_unresolved_address_witness :
  mapToGCE (H:=sample_externals) (H0:=canonical_range) unresolved_address_instance "p"
    gce_ipAddressResolver
  = Fail (Errorf "instance IP address has not yet been created" []).
Proof.
  apply (mapToGCE_unresolved_address (H:=sample_externals) (H0:=canonical_range)
           unresolved_address_instance "p" gce_ipAddressResolver "z" "debian-8"
           {| IPAddress.Name := Some "master-ip"; IPAddress.Address := None |}).
  - reflexivity.
  - reflexivity.
  - vm_compute. lia.
  - intros disks k d Hd. discriminate Hd.
  - reflexivity.
  - reflexivity.
Defined.

(** ** Actions that only read *)

Section reading.
Context `{Externals} `{MapRange} {B : Type} `{!ComputeService B}.

Lemma reads_only_ret {A} (a : A) : reads_only (mret a : action B A).
Proof. by intros w. Qed.

Lemma reads_only_lift {A} (m : outcome A) : reads_only (lift m : action B A).
Proof. by intros w. Qed.

Lemma reads_only_call {A} (c : Call) (f : B → A * B) :
  is_update c = false → reads_only (call c f).
Proof.
  intros Hc w. unfold call. simpl. destruct (f (World.backend w)) as [r b']. simpl.
  split; [|done]. unfold updates. rewrite List.filter_app. simpl. rewrite Hc.
  apply app_nil_r.
Qed.

Lemma reads_only_bind {A C} (m : action B A) (f : A → action B C) :
  reads_only m → (∀ a, reads_only (f a)) → reads_only (m ≫= f).
Proof.
  intros Hm Hf w. rewrite bind_run. destruct (Hm w) as [Hu Hc].
  destruct (run m w) as [[a| | | |] w1]; simpl in *; try done.
  destruct (Hf a w1) as [Hu' Hc']. split; congruence.
Qed.

Ltac reads :=
  repeat first
    [ apply reads_only_ret
    | apply reads_only_lift
    | apply reads_only_call; reflexivity
    | apply reads_only_bind; [|intros ?]
    | match goal with
      | |- reads_only (match ?x with _ => _ end) => destruct x
      end ].

Lemma poll_reads_only fuel project zone name : reads_only (poll fuel project zone name).
Proof.
  induction fuel as [|fuel IH]; simpl; [apply reads_only_lift|].
  apply reads_only_bind.
  { by apply (reads_only_call (ZoneOperationsGet project zone name)
                (ZoneOperations_Get project zone name)). }
  intros [err|status]; [apply reads_only_lift|].
  destruct (String.eqb (compute.Operation.Status status) "DONE"); [apply reads_only_ret|].
  apply reads_only_bind; [|intros _; apply IH].
  by apply (reads_only_call (Sleep 1) (λ b, (tt, time_Sleep 1 b))).
Qed.

(** X17: [waitCompletion] only reads: the calls it issues are status queries
    and sleeps, never an insert or a metadata write, and it leaves the diff
    alone, whatever the backend answers and however the loop ends. *)
Theorem waitCompletion_reads_only fuel project op :
  reads_only (waitCompletion fuel project op).
Proof.
  unfold waitCompletion. apply reads_only_bind; [apply poll_reads_only|].
  intros status. reads.
Qed.

Lemma find_network_reads_only cloud nis : reads_only (find_network cloud nis).
Proof. unfold find_network. reads. Qed.

Lemma find_boot_image_reads_only cloud e disk : reads_only (find_boot_image cloud e disk).
Proof. unfold find_boot_image. reads. Qed.

(** X12: [Find] only reads: whatever the backend answers and however [Find]
    ends, the calls it has issued are gets and list queries, never an insert
    or a metadata write, and the diff is left alone. *)
Theorem Find_reads_only e cloud : reads_only (Find e cloud).
Proof.
  unfold Find.
  repeat first
    [ apply find_network_reads_only
    | apply find_boot_image_reads_only
    | apply reads_only_ret
    | apply reads_only_lift
    | apply reads_only_call; reflexivity
    | apply reads_only_bind; [|intros ?]
    | match goal with
      | |- reads_only (match ?x with _ => _ end) => destruct x
      end ].
Qed.

End reading.

(** ** What [Find] reads back *)

Section found.
Context `{Externals} `{MapRange} {B : Type} `{!ComputeService B}.
Implicit Types (w : World.t B) (e actual : Instance.t).

(** X13: the actual task that [Find] returns, field by field. Name and the
    forwarding flag are the response's; zone and machine type are the last
    components of the response's URLs; [Preemptible] is set exactly when the
    response has a scheduling record; tags and scopes are nil when the
    response lists none, the scopes being those of all service accounts, in
    order, each in its short form; metadata and fingerprint are those of the
    response's metadata record; the disk map is never nil and [Subnet] is
    never read back. *)
Theorem Find_reads_back e cloud w w' name zone r b' actual :
  Instance.Name e = Some name →
  Instance.Zone e = Some zone →
  Instances_Get (GCECloud.Project cloud) zone name (World.backend w) = (inr r, b') →
  run (Find e cloud) w = (Ret (Some actual), w') →
  Instance.Name actual = Some (compute.Instance.Name r)
  ∧ Instance.CanIPForward actual = Some (compute.Instance.CanIpForward r)
  ∧ Instance.Zone actual = Some (lastComponent (compute.Instance.Zone r))
  ∧ Instance.MachineType actual = Some (lastComponent (compute.Instance.MachineType r))
  ∧ Instance.Preemptible actual
    = (compute.Scheduling.Preemptible <$> compute.Instance.Scheduling r)
  ∧ (∃ rtags, compute.Instance.Tags r = Some rtags
              ∧ Instance.Tags actual = appended (elems (compute.Tags.Items rtags)))
  ∧ Instance.Scopes actual
    = appended (scopeToShortForm
                  <$> (elems (compute.Instance.ServiceAccounts r)
                         ≫= λ sa, elems (compute.ServiceAccount.Scopes sa)))
  ∧ Instance.Metadata actual
    = ((λ m, find_metadata (elems (compute.Metadata.Items m))) <$> compute.Instance.Metadata r)
  ∧ Instance.metadataFingerprint actual = response_fingerprint r
  ∧ Instance.Disks actual ≠ None
  ∧ Instance.Subnet actual = None.
Proof.
  intros Hname Hzone Hget. unfold Find, response_fingerprint. rewrite Hname, Hzone.
  rewrite bind_run. cbn [lift run deref].
  rewrite bind_run. cbn [lift run deref].
  rewrite bind_run. cbn [call run]. rewrite Hget.
  intros Hfind.
  apply bind_run_Ret_inv in Hfind as (rtags & w1 & Htags & Hfind).
  apply bind_run_Ret_inv in Hfind as ([network ipAddress] & w2 & _ & Hfind).
  apply bind_run_Ret_inv in Hfind as ([image disks] & w3 & _ & Hfind).
  cbn [lift run] in Htags. injection Htags as Htags%deref_Ret_inv _.
  assert (∀ l : list string, foldl append None l = appended l) as Happ.
  { assert (∀ (l : list string) acc,
              foldl append acc l = match l with [] => acc | _ => Some (elems acc ++ l) end) as Hg.
    { induction l as [|a l IH]; intros acc; [done|]. simpl. rewrite IH.
      destruct l; simpl; [done|]. by rewrite <- app_assoc. }
    intros l. rewrite Hg. by destruct l. }
  assert (∀ (sas : list compute.ServiceAccount.t) acc,
            foldl (λ scopes serviceAccount,
                     foldl (λ scopes scope, append scopes (scopeToShortForm scope))
                       scopes (elems (compute.ServiceAccount.Scopes serviceAccount)))
                  acc sas
            = match sas ≫= (λ sa, elems (compute.ServiceAccount.Scopes sa)) with
              | [] => acc
              | l => Some (elems acc ++ (scopeToShortForm <$> l))
              end) as Hscopes.
  { induction sas as [|sa sas IH]; intros acc; [done|].
    cbn [foldl mbind list_bind]. rewrite IH, (foldl_append scopeToShortForm).
    destruct (elems (compute.ServiceAccount.Scopes sa)) as [|s ss]; [done|].
    destruct (sas ≫= _) as [|s' ss'].
    - by rewrite app_nil_r.
    - cbn [elems default from_option id app]. by rewrite <- app_assoc, <- fmap_app. }
  assert (Instance.Scopes actual
          = appended (scopeToShortForm
                        <$> (elems (compute.Instance.ServiceAccounts r)
                               ≫= λ sa, elems (compute.ServiceAccount.Scopes sa)))
          ∧ Instance.Tags actual = appended (elems (compute.Tags.Items rtags))
          ∧ Instance.Name actual = Some (compute.Instance.Name r)
          ∧ Instance.CanIPForward actual = Some (compute.Instance.CanIpForward r)
          ∧ Instance.Zone actual = Some (lastComponent (compute.Instance.Zone r))
          ∧ Instance.MachineType actual = Some (lastComponent (compute.Instance.MachineType r))
          ∧ Instance.Preemptible actual
            = (compute.Scheduling.Preemptible <$> compute.Instance.Scheduling r)
          ∧ Instance.Metadata actual
            = ((λ m, find_metadata (elems (compute.Metadata.Items m)))
                 <$> compute.Instance.Metadata r)
          ∧ Instance.metadataFingerprint actual
            = match compute.Instance.Metadata r with
              | Some m => compute.Metadata.Fingerprint m
              | None => ""
              end
          ∧ Instance.Disks actual ≠ None
          ∧ Instance.Subnet actual = None) as Hall.
  { destruct (compute.Instance.Metadata r), (compute.Instance.Scheduling r);
      simpl in Hfind; injection Hfind as <- _; simpl;
      rewrite Hscopes, Happ;
      (repeat split; try done);
      by destruct (elems (compute.Instance.ServiceAccounts r) ≫= _). }
  destruct Hall as (?&?&?&?&?&?&?&?&?&?&?).
  repeat split; try done. by exists rtags.
Qed.

End found.

Lemma Find_reads_back_witness :
  Instance.Name sample_actual = Some "master"
  ∧ Instance.metadataFingerprint sample_actual = "fp-1"
  ∧ Instance.Subnet sample_actual = None.
Proof.
  edestruct (Find_reads_back (H0:=canonical_range) (ComputeService0:=Scripted.service)
               sample_instance sample_cloud (world_before_find 0 None Instance.zero)
               (world_after_find 0 None Instance.zero) "master" "z" sample_response
               (Scripted.init (Some sample_response) 0 None) sample_actual)
    as (Hname & _ & _ & _ & _ & _ & _ & _ & Hfp & _ & Hsubnet).
  - reflexivity.
  - reflexivity.
  - vm_compute. reflexivity.
  - vm_compute. reflexivity.
  - split; [exact Hname|]. split; [exact Hfp|exact Hsubnet].
Defined.

(** X14: the metadata map that [Find] builds from the items of a response.
    A key is in the map exactly when some item with that key has a value;
    items with a nil value are skipped; and when the keys of the items are
    distinct, each item with a value is stored as the string resource of
    that value. *)
Theorem find_metadata_entries `{Externals} (items : list compute.MetadataItems.t) :
  (∀ k, find_metadata items !! k = None
        ↔ ∀ item, item ∈ items → compute.MetadataItems.Key item = k →
                  compute.MetadataItems.Value item = None)
  ∧ (NoDup (compute.MetadataItems.Key <$> items) →
     ∀ item v, item ∈ items → compute.MetadataItems.Value item = Some v →
               find_metadata items !! compute.MetadataItems.Key item
               = Some (NewStringResource v)).
Proof.
  unfold find_metadata. induction items as [|last items IH] using rev_ind.
  { split.
    - intros k. split; [intros _ item Hin; by apply elem_of_nil in Hin|done].
    - intros _ item v Hin. by apply elem_of_nil in Hin. }
  destruct IH as [IHnone IHsome]. rewrite foldl_app. simpl. split.
  - intros k. destruct (compute.MetadataItems.Value last) as [v|] eqn:Hv.
    + destruct (decide (compute.MetadataItems.Key last = k)) as [<-|Hne].
      * rewrite lookup_insert_eq. split; [done|]. intros Hall.
        specialize (Hall last). rewrite Hv in Hall.
        assert (Some v = None) as Habs; [|discriminate Habs].
        apply Hall; [|done]. apply elem_of_app. right. by apply list_elem_of_singleton.
      * rewrite lookup_insert_ne by done. rewrite IHnone. split.
        -- intros Hall item [Hin|Hin%list_elem_of_singleton]%elem_of_app Hk;
             [by apply Hall|]. by subst.
        -- intros Hall item Hin. apply Hall. apply elem_of_app. by left.
    + rewrite IHnone. split.
      * intros Hall item [Hin|Hin%list_elem_of_singleton]%elem_of_app Hk;
          [by apply Hall|]. by subst.
      * intros Hall item Hin. apply Hall. apply elem_of_app. by left.
  - rewrite fmap_app. intros [Hnd [Hdisj _]]%NoDup_app item v Hin Hv.
    apply elem_of_app in Hin as [Hin|Hin%list_elem_of_singleton].
    + assert (compute.MetadataItems.Key last ≠ compute.MetadataItems.Key item) as Hne.
      { intros Heq. apply (Hdisj (compute.MetadataItems.Key item)).
        - apply list_elem_of_fmap. by exists item.
        - simpl. rewrite Heq. by left. }
      destruct (compute.MetadataItems.Value last).
      * rewrite lookup_insert_ne by done. by apply IHsome.
      * by apply IHsome.
    + subst item. rewrite Hv. apply lookup_insert_eq.
Qed.

Section found_errors.
Context `{Externals} `{MapRange} {B : Type} `{!ComputeService B}.
Implicit Types (w : World.t B) (e : Instance.t).

(** X15: a response without a tags record makes [Find] fault: after the one
    get it dereferences the nil [Tags] pointer, and issues no further call. *)
Theorem Find_untagged_response e cloud w name zone r b' :
  Instance.Name e = Some name →
  Instance.Zone e = Some zone →
  Instances_Get (GCECloud.Project cloud) zone name (World.backend w) = (inr r, b') →
  compute.Instance.Tags r = None →
  run (Find e cloud) w
  = (Panic nil_dereference,
     {| World.backend := b';
        World.calls := World.calls w ++ [InstancesGet (GCECloud.Project cloud) zone name];
        World.changes := World.changes w |}).
Proof.
  intros Hname Hzone Hget Htags. unfold Find. rewrite Hname, Hzone.
  do 3 (rewrite bind_run; cbn [lift run deref call]). rewrite Hget.
  rewrite bind_run. cbn [lift run]. by rewrite Htags.
Qed.

(** X16: the address of the first network interface. When the first access
    config of the first interface has a NAT address, [Find] asks for the
    addresses of the region filtered on that address; a failed query and an
    empty answer both end [Find] with an error that names the address, after
    these two calls and no other. *)
Theorem Find_address_lookup_fails e cloud w name zone r b1 rtags ni nis ac acs answer b2 :
  let project := GCECloud.Project cloud in
  let natIP := compute.AccessConfig.NatIP ac in
  let filter := "address eq " +:+ natIP in
  Instance.Name e = Some name →
  Instance.Zone e = Some zone →
  Instances_Get project zone name (World.backend w) = (inr r, b1) →
  compute.Instance.Tags r = Some rtags →
  compute.Instance.NetworkInterfaces r = Some (ni :: nis) →
  compute.NetworkInterface.AccessConfigs ni = Some (ac :: acs) →
  natIP ≠ "" →
  Addresses_List project (GCECloud.Region cloud) filter b1 = (answer, b2) →
  match answer with
  | inl _ => True
  | inr addr => elems (compute.AddressList.Items addr) = []
  end →
  run (Find e cloud) w
  = (Fail (match answer with
           | inl err => Errorf "error querying for address %q: %v"
                          [ArgString natIP; ArgError (Some (ApiError err))]
           | inr _ => Errorf "address not found %q: %v" [ArgString natIP; ArgError None]
           end),
     {| World.backend := b2;
        World.calls :=
          World.calls w
            ++ [InstancesGet project zone name;
                AddressesList project (GCECloud.Region cloud) filter];
        World.changes := World.changes w |}).
Proof.
  intros project natIP filter Hname Hzone Hget Htags Hnis Hacs Hnat Hlist Hanswer.
  unfold Find. fold project. rewrite Hname, Hzone.
  do 3 (rewrite bind_run; cbn [lift run deref call]). rewrite Hget.
  rewrite bind_run. cbn [lift run]. rewrite Htags. cbn [deref].
  rewrite bind_run. unfold find_network. rewrite Hnis. cbn [elems default from_option id].
  rewrite Hacs. cbn [elems default from_option id]. fold natIP.
  apply String.eqb_neq in Hnat. rewrite Hnat.
  rewrite bind_run. cbn [call run World.backend]. fold project filter. rewrite Hlist.
  destruct answer as [err|addr]; cbn [lift run World.calls World.changes World.backend].
  - by rewrite <- app_assoc.
  - rewrite Hanswer. cbn [lift run]. by rewrite <- app_assoc.
Qed.

End found_errors.

Lemma find_metadata_entries_witness :
  find_metadata (H:=sample_externals)
    [ {| compute.MetadataItems.Key := "a"; compute.MetadataItems.Value := Some "1" |};
      {| compute.MetadataItems.Key := "b"; compute.MetadataItems.Value := None |} ] !! "a"
  = Some (Some "1").
Proof.
  apply (proj2 (find_metadata_entries (H:=sample_externals)
                  [ {| compute.MetadataItems.Key := "a"; compute.MetadataItems.Value := Some "1" |};
                    {| compute.MetadataItems.Key := "b"; compute.MetadataItems.Value := None |} ])
           ltac:(apply (bool_decide_unpack _); vm_compute; exact I)
           {| compute.MetadataItems.Key := "a"; compute.MetadataItems.Value := Some "1" |} "1").
  - by left.
  - reflexivity.
Defined.

Lemma Find_untagged_response_witness :
  (run (Find (H0:=canonical_range) (ComputeService0:=Scripted.service) sample_instance sample_cloud)
       (sample_world (Some untagged_response) 0 None Instance.zero)).1
  = Panic nil_dereference.
Proof.
  rewrite (Find_untagged_response (H0:=canonical_range) (ComputeService0:=Scripted.service)
             sample_instance sample_cloud (sample_world (Some untagged_response) 0 None Instance.zero)
             "master" "z" untagged_response (Scripted.init (Some untagged_response) 0 None));
    reflexivity.
Defined.

Lemma Find_address_lookup_fails_witness :
  (run (Find (H0:=canonical_range) (ComputeService0:=Scripted.service) sample_instance sample_cloud)
       (sample_world (Some natted_response) 0 None Instance.zero)).1
  = Fail (Errorf "error querying for address %q: %v"
            [ArgString "203.0.113.7"; ArgError (Some (@ApiError sample_externals false))]).
Proof.
  erewrite (Find_address_lookup_fails (H0:=canonical_range) (ComputeService0:=Scripted.service)
              sample_instance sample_cloud (sample_world (Some natted_response) 0 None Instance.zero)
              "master" "z" natted_response _ _ _ _ _ _ (inl false)); cycle 1.
  - reflexivity.
  - reflexivity.
  - vm_compute. reflexivity.
  - reflexivity.
  - reflexivity.
  - reflexivity.
  - discriminate.
  - vm_compute. reflexivity.
  - exact I.
  - reflexivity.
Defined.

(** ** More of the poller *)

Section polling.
Context `{Externals} {B : Type} `{!ComputeService B}.
Implicit Types (w : World.t B) (b : B) (st : compute.Operation.t).

Lemma poll_fails project zone name k : ∀ fuel w err,
  pending_until project zone name k (World.backend w) →
  (nth_poll project zone name k (World.backend w)).1 = inl err →
  k < fuel →
  run (poll fuel project zone name) w
  = (Fail (Errorf "error fetching operation status: %v" [ArgError (Some (ApiError err))]),
     {| World.backend := (nth_poll project zone name k (World.backend w)).2;
        World.calls := World.calls w ++ poll_calls project zone name k;
        World.changes := World.changes w |}).
Proof.
  induction k as [|k IH]; intros fuel w err Hpending Hk Hfuel;
    (destruct fuel as [|fuel]; [lia|]); simpl.
  - simpl in Hk. destruct (ZoneOperations_Get project zone name (World.backend w)) as [r b'].
    simpl in *. by subst r.
  - apply pending_until_S in Hpending as (st0 & Hget & Hne & Hpending).
    simpl in Hk. rewrite Hget. simpl.
    apply String.eqb_neq in Hne. rewrite Hne. simpl.
    rewrite (IH fuel _ err); simpl; [|done..|lia].
    rewrite poll_calls_S. by rewrite <- !app_assoc.
Qed.

Lemma poll_pending project zone name : ∀ fuel w,
  pending_until project zone name fuel (World.backend w) →
  run (poll fuel project zone name) w
  = (Running,
     {| World.backend := after_polls project zone name fuel (World.backend w);
        World.calls := World.calls w ++ pending_calls project zone name fuel;
        World.changes := World.changes w |}).
Proof.
  induction fuel as [|fuel IH]; intros w Hpending.
  - simpl. destruct w. simpl. by rewrite app_nil_r.
  - apply pending_until_S in Hpending as (st0 & Hget & Hne & Hpending).
    simpl. rewrite Hget. simpl. apply String.eqb_neq in Hne. rewrite Hne. simpl.
    rewrite IH by done. simpl. unfold pending_calls. simpl. by rewrite <- !app_assoc.
Qed.

(** X18: what [waitCompletion] returns. When the first [k] status queries are
    answered with a status other than ["DONE"] and query [k] is answered
    ["DONE"], it returns nil if the operation has no error record and an
    error with the message of the first error if the record lists one. It
    has then made [k+1] status queries with a one-second sleep after each of
    the first [k], and nothing else. *)
Theorem waitCompletion_returns project op k fuel w st :
  let zone := lastComponent (compute.Operation.Zone op) in
  let name := compute.Operation.Name op in
  let w' := {| World.backend := (nth_poll project zone name k (World.backend w)).2;
               World.calls := World.calls w ++ poll_calls project zone name k;
               World.changes := World.changes w |} in
  pending_until project zone name k (World.backend w) →
  (nth_poll project zone name k (World.backend w)).1 = inr st →
  compute.Operation.Status st = "DONE" →
  k < fuel →
  (compute.Operation.Error st = None →
   run (waitCompletion fuel project op) w = (Ret tt, w'))
  ∧ (∀ operr e0 rest,
       compute.Operation.Error st = Some operr →
       elems (compute.OperationError.Errors operr) = e0 :: rest →
       run (waitCompletion fuel project op) w
       = (Fail (Errorf "operation failed: %v"
                  [ArgString (compute.OperationErrorErrors.Message e0)]), w')).
Proof.
  intros zone name w' Hpending Hk Hdone Hfuel.
  pose proof (waitCompletion_done project op k fuel w st Hpending Hk Hdone Hfuel) as Hrun.
  split.
  - intros Herr. by rewrite Hrun, Herr.
  - intros operr e0 rest Herr Herrs. by rewrite Hrun, Herr, Herrs.
Qed.

(** X19: a status query that fails ends [waitCompletion] at once: after [k]
    answers other than ["DONE"], a failed query [k] is returned as the
    error "error fetching operation status", and no further query is made. *)
Theorem waitCompletion_query_fails project op k fuel w err :
  let zone := lastComponent (compute.Operation.Zone op) in
  let name := compute.Operation.Name op in
  pending_until project zone name k (World.backend w) →
  (nth_poll project zone name k (World.backend w)).1 = inl err →
  k < fuel →
  run (waitCompletion fuel project op) w
  = (Fail (Errorf "error fetching operation status: %v" [ArgError (Some (ApiError err))]),
     {| World.backend := (nth_poll project zone name k (World.backend w)).2;
        World.calls := World.calls w ++ poll_calls project zone name k;
        World.changes := World.changes w |}).
Proof.
  intros zone name Hpending Hk Hfuel. unfold waitCompletion. rewrite bind_run.
  fold zone name. by rewrite (poll_fails _ _ _ k fuel w err).
Qed.

(** X20: [waitCompletion] keeps polling on every status other than ["DONE"],
    also one that is neither ["PENDING"] nor ["RUNNING"]: as long as the
    answers are such statuses it has not returned, and what it has done is
    one status query and one one-second sleep per answer. *)
Theorem waitCompletion_keeps_polling project op fuel w :
  let zone := lastComponent (compute.Operation.Zone op) in
  let name := compute.Operation.Name op in
  pending_until project zone name fuel (World.backend w) →
  run (waitCompletion fuel project op) w
  = (Running,
     {| World.backend := after_polls project zone name fuel (World.backend w);
        World.calls := World.calls w ++ pending_calls project zone name fuel;
        World.changes := World.changes w |}).
Proof.
  intros zone name Hpending. unfold waitCompletion. rewrite bind_run.
  fold zone name. by rewrite poll_pending.
Qed.

End polling.

Lemma waitCompletion_returns_witness :
  run (waitCompletion (ComputeService0:=Scripted.service) 5 "p"
         (Scripted.operation "PENDING" None))
      (sample_world None 2
         (Some {| compute.OperationError.Errors :=
                    Some [ {| compute.OperationErrorErrors.Message := "quota exceeded" |} ] |})
         Instance.zero)
  = (Fail (Errorf "operation failed: %v" [ArgString "quota exceeded"]),
     {| World.backend :=
          Scripted.init None 0
            (Some {| compute.OperationError.Errors :=
                       Some [ {| compute.OperationErrorErrors.Message := "quota exceeded" |} ] |});
        World.calls := poll_calls "p" "z" "operation-1" 2;
        World.changes := Instance.zero |}).
Proof.
  edestruct (waitCompletion_returns (ComputeService0:=Scripted.service) "p"
               (Scripted.operation "PENDING" None) 2 5
               (sample_world None 2
                  (Some {| compute.OperationError.Errors :=
                             Some [ {| compute.OperationErrorErrors.Message := "quota exceeded" |} ] |})
                  Instance.zero)) as [_ Hfail].
  - intros j Hj.
    destruct j as [|[|j]]; [eexists; split; [vm_compute; reflexivity|discriminate]..|lia].
  - vm_compute. reflexivity.
  - reflexivity.
  - lia.
  - erewrite Hfail; [|reflexivity|reflexivity]. vm_compute. reflexivity.
Defined.

Lemma waitCompletion_query_fails_witness :
  run (waitCompletion (ComputeService0:=Failing.service) 5 "p"
         (Scripted.operation "PENDING" None))
      (Failing.world 1 Instance.zero)
  = (Fail (Errorf "error fetching operation status: %v"
             [ArgError (Some (@ApiError sample_externals false))]),
     {| World.backend := 0;
        World.calls := poll_calls "p" "z" "operation-1" 1;
        World.changes := Instance.zero |}).
Proof.
  rewrite (waitCompletion_query_fails (ComputeService0:=Failing.service) "p"
             (Scripted.operation "PENDING" None) 1 5 (Failing.world 1 Instance.zero) false).
  - vm_compute. reflexivity.
  - intros j Hj. destruct j as [|j]; [eexists; split; [vm_compute; reflexivity|discriminate]|lia].
  - vm_compute. reflexivity.
  - lia.
Defined.

Lemma waitCompletion_keeps_polling_witness :
  run (waitCompletion (ComputeService0:=Failing.service) 2 "p"
         (Scripted.operation "PENDING" None))
      (Failing.world 3 Instance.zero)
  = (Running,
     {| World.backend := 1;
        World.calls := pending_calls "p" "z" "operation-1" 2;
        World.changes := Instance.zero |}).
Proof.
  rewrite (waitCompletion_keeps_polling (ComputeService0:=Failing.service) "p"
             (Scripted.operation "PENDING" None) 2 (Failing.world 3 Instance.zero)).
  - vm_compute. reflexivity.
  - intros j Hj.
    destruct j as [|[|j]]; [eexists; split; [vm_compute; reflexivity|discriminate]..|lia].
Defined.

(** ** More of the live render target *)

Section rendering.
Context `{Externals} `{MapRange} {B : Type} `{!ComputeService B}.
Implicit Types (w : World.t B) (e actual : Instance.t).

(** X21: when the desired task does not map, [RenderGCE] does nothing: a nil
    [Zone] faults at once, and an error, fault or exit of [mapToGCE] is what
    [RenderGCE] ends with, unchanged; no call has been issued and the world
    is as it was, whether or not the instance exists. *)
Theorem RenderGCE_mapping_fails fuel cloud a e w :
  let project := GCECloud.Project cloud in
  (Instance.Zone e = None →
   run (RenderGCE fuel cloud a e) w = (Panic nil_dereference, w))
  ∧ (∀ err, mapToGCE e project gce_ipAddressResolver = Fail err →
     run (RenderGCE fuel cloud a e) w = (Fail err, w))
  ∧ (∀ why, mapToGCE e project gce_ipAddressResolver = Panic why →
     run (RenderGCE fuel cloud a e) w = (Panic why, w))
  ∧ (∀ format args, mapToGCE e project gce_ipAddressResolver = Exit format args →
     run (RenderGCE fuel cloud a e) w = (Exit format args, w)).
Proof.
  intros project.
  assert (∀ o, mapToGCE e project gce_ipAddressResolver = o → ∃ zone, o = Panic nil_dereference
            ∨ Instance.Zone e = Some zone) as Hzone.
  { intros o <-. unfold mapToGCE. destruct (Instance.Zone e) as [zone|]; [|by exists ""; left].
    exists zone. by right. }
  split; [|split; [|split]].
  - intros Hz. unfold RenderGCE. by rewrite Hz.
  - intros err Hmap. unfold RenderGCE. fold project.
    destruct (Hzone _ Hmap) as (zone & [Habs|Hz]); [discriminate Habs|].
    rewrite Hz. rewrite bind_run. cbn [lift run deref]. rewrite bind_run. cbn [lift run].
    by rewrite Hmap.
  - intros why Hmap. unfold RenderGCE. fold project.
    destruct (Instance.Zone e) as [zone|] eqn:Hz.
    + rewrite bind_run. cbn [lift run deref]. rewrite bind_run. cbn [lift run].
      by rewrite Hmap.
    + unfold mapToGCE in Hmap. rewrite Hz in Hmap. simpl in Hmap. by injection Hmap as <-.
  - intros format args Hmap. unfold RenderGCE. fold project.
    destruct (Hzone _ Hmap) as (zone & [Habs|Hz]); [discriminate Habs|].
    rewrite Hz. rewrite bind_run. cbn [lift run deref]. rewrite bind_run. cbn [lift run].
    by rewrite Hmap.
Qed.

(** X22: on an existing instance a diff without metadata leads to no call at
    all: [RenderGCE] returns nil when the diff is empty and the
    unsupported-change error carrying the diff otherwise, and the world is
    as it was. *)
Theorem RenderGCE_without_metadata fuel cloud actual e w i :
  mapToGCE e (GCECloud.Project cloud) gce_ipAddressResolver = Ret i →
  Instance.Metadata (World.changes w) = None →
  run (RenderGCE fuel cloud (Some actual) e) w
  = (if isZero (World.changes w) then Ret tt
     else Fail (Errorf "Cannot apply changes to Instance: %v" [ArgInstance (World.changes w)]),
     w).
Proof.
  intros Hmap Hm.
  destruct (mapToGCE_Ret_inv _ _ _ _ Hmap) as (zone & name & boot & rest & items & Hzone & _).
  unfold RenderGCE. rewrite Hzone, Hmap.
  do 3 (rewrite bind_run; cbn [lift run deref get_changes]).
  rewrite bind_run. rewrite Hm. cbn [mret action_ret run].
  rewrite bind_run; cbn [get_changes run].
  by destruct (isZero (World.changes w)).
Qed.

(** X23: when the set-metadata call itself fails, [RenderGCE] returns the
    wrapped error after that one call: it does not poll, and the diff keeps
    its [Metadata]. *)
Theorem RenderGCE_set_metadata_fails fuel cloud actual e w i m zone err b1 :
  let project := GCECloud.Project cloud in
  let metadata :=
    {| compute.Metadata.Items := payload_items i;
       compute.Metadata.Fingerprint := Instance.metadataFingerprint actual |} in
  Instance.Zone e = Some zone →
  mapToGCE e project gce_ipAddressResolver = Ret i →
  Instance.Metadata (World.changes w) = Some m →
  Instances_SetMetadata project zone (compute.Instance.Name i) metadata (World.backend w)
    = (inl err, b1) →
  run (RenderGCE fuel cloud (Some actual) e) w
  = (Fail (Errorf "error setting metadata on instance: %v" [ArgError (Some (ApiError err))]),
     {| World.backend := b1;
        World.calls :=
          World.calls w ++ [InstancesSetMetadata project zone (compute.Instance.Name i) metadata];
        World.changes := World.changes w |}).
Proof.
  intros project metadata Hzone Hmap Hm Hset.
  destruct (mapToGCE_Ret_inv _ _ _ _ Hmap)
    as (zone' & name & boot & rest & items & _ & _ & _ & Hmeta & _).
  assert (payload_items i = items) as Hitems by (unfold payload_items; by rewrite Hmeta).
  unfold RenderGCE. fold project. rewrite Hzone, Hmap.
  do 3 (rewrite bind_run; cbn [lift run deref get_changes]).
  rewrite bind_run. rewrite Hm, Hmeta.
  rewrite bind_run; cbn [lift run deref].
  rewrite bind_run; cbn [call run compute.Metadata.Items].
  rewrite <- Hitems. fold metadata. by rewrite Hset.
Qed.

(** X24: when the metadata operation ends with errors, [RenderGCE] returns
    the first error's message wrapped twice, after the set-metadata call and
    the poll; the diff keeps its [Metadata], so the write is not reported as
    applied. *)
Theorem RenderGCE_operation_fails fuel k cloud actual e w i m zone op b1 st operr first others :
  let project := GCECloud.Project cloud in
  let metadata :=
    {| compute.Metadata.Items := payload_items i;
       compute.Metadata.Fingerprint := Instance.metadataFingerprint actual |} in
  let opzone := lastComponent (compute.Operation.Zone op) in
  let opname := compute.Operation.Name op in
  Instance.Zone e = Some zone →
  mapToGCE e project gce_ipAddressResolver = Ret i →
  Instance.Metadata (World.changes w) = Some m →
  Instances_SetMetadata project zone (compute.Instance.Name i) metadata (World.backend w)
    = (inr op, b1) →
  pending_until project opzone opname k b1 →
  (nth_poll project opzone opname k b1).1 = inr st →
  compute.Operation.Status st = "DONE" →
  compute.Operation.Error st = Some operr →
  elems (compute.OperationError.Errors operr) = first :: others →
  k < fuel →
  run (RenderGCE fuel cloud (Some actual) e) w
  = (Fail (Errorf "error setting metadata on instance: %v"
             [ArgError (Some (Errorf "operation failed: %v"
                                [ArgString (compute.OperationErrorErrors.Message first)]))]),
     {| World.backend := (nth_poll project opzone opname k b1).2;
        World.calls :=
          World.calls w
            ++ InstancesSetMetadata project zone (compute.Instance.Name i) metadata
               :: poll_calls project opzone opname k;
        World.changes := World.changes w |}).
Proof.
  intros project metadata opzone opname Hzone Hmap Hm Hset Hpending Hk Hdone Herr Herrs Hfuel.
  destruct (mapToGCE_Ret_inv _ _ _ _ Hmap)
    as (zone' & name & boot & rest' & items & _ & _ & _ & Hmeta & _).
  assert (payload_items i = items) as Hitems by (unfold payload_items; by rewrite Hmeta).
  unfold RenderGCE. fold project. rewrite Hzone, Hmap.
  do 3 (rewrite bind_run; cbn [lift run deref get_changes]).
  rewrite bind_run. rewrite Hm, Hmeta.
  rewrite bind_run; cbn [lift run deref].
  rewrite bind_run; cbn [call run compute.Metadata.Items].
  rewrite <- Hitems. fold metadata. rewrite Hset.
  rewrite bind_run. unfold on_error_a. cbn [run].
  rewrite (waitCompletion_done project op k fuel _ st) by done.
  rewrite Herr, Herrs. cbn [on_error World.backend World.calls World.changes].
  by rewrite <- app_assoc.
Qed.

End rendering.

Lemma RenderGCE_mapping_fails_witness :
  run (RenderGCE (H0:=canonical_range) (ComputeService0:=Scripted.service)
         3 sample_cloud None unresolved_address_instance)
      (sample_world None 0 None Instance.zero)
  = (Fail (Errorf "instance IP address has not yet been created" []),
     sample_world None 0 None Instance.zero).
Proof.
  apply (RenderGCE_mapping_fails (H0:=canonical_range) (ComputeService0:=Scripted.service)
           3 sample_cloud None unresolved_address_instance
           (sample_world None 0 None Instance.zero)).
  vm_compute. reflexivity.
Defined.

Lemma RenderGCE_without_metadata_witness :
  run (RenderGCE (H0:=canonical_range) (ComputeService0:=Scripted.service)
         3 sample_cloud (Some sample_actual) sample_instance)
      (world_after_find 0 None machine_type_changes)
  = (Fail (Errorf "Cannot apply changes to Instance: %v" [ArgInstance machine_type_changes]),
     world_after_find 0 None machine_type_changes).
Proof.
  erewrite (RenderGCE_without_metadata (H0:=canonical_range) (ComputeService0:=Scripted.service)
              3 sample_cloud sample_actual sample_instance
              (world_after_find 0 None machine_type_changes)).
  - vm_compute. reflexivity.
  - vm_compute. reflexivity.
  - reflexivity.
Defined.

Lemma RenderGCE_set_metadata_fails_witness :
  ∃ metadata,
    run (RenderGCE (H0:=canonical_range) (ComputeService0:=Failing.service)
           3 sample_cloud (Some sample_actual) sample_instance)
        (Failing.world 0 metadata_only_changes)
    = (Fail (Errorf "error setting metadata on instance: %v"
               [ArgError (Some (@ApiError sample_externals false))]),
       {| World.backend := 0;
          World.calls := [InstancesSetMetadata "p" "z" "master" metadata];
          World.changes := metadata_only_changes |}).
Proof.
  eexists.
  erewrite (RenderGCE_set_metadata_fails (H0:=canonical_range) (ComputeService0:=Failing.service)
              3 sample_cloud sample_actual sample_instance
              (Failing.world 0 metadata_only_changes)); cycle 1.
  - reflexivity.
  - vm_compute. reflexivity.
  - vm_compute. reflexivity.
  - vm_compute. reflexivity.
  - vm_compute. reflexivity.
Defined.

Lemma RenderGCE_operation_fails_witness :
  (run (RenderGCE (H0:=canonical_range) (ComputeService0:=Scripted.service)
          5 sample_cloud (Some sample_actual) sample_instance)
       (world_after_find 1 (Some quota_error) metadata_only_changes)).1
  = Fail (Errorf "error setting metadata on instance: %v"
            [ArgError (Some (Errorf "operation failed: %v" [ArgString "quota exceeded"]))])
  ∧ World.changes
      (run (RenderGCE (H0:=canonical_range) (ComputeService0:=Scripted.service)
              5 sample_cloud (Some sample_actual) sample_instance)
           (world_after_find 1 (Some quota_error) metadata_only_changes)).2
    = metadata_only_changes.
Proof.
  erewrite (RenderGCE_operation_fails (H0:=canonical_range) (ComputeService0:=Scripted.service)
              5 1 sample_cloud sample_actual sample_instance
              (world_after_find 1 (Some quota_error) metadata_only_changes)); cycle 1.
  - reflexivity.
  - vm_compute. reflexivity.
  - vm_compute. reflexivity.
  - vm_compute. reflexivity.
  - intros j Hj. destruct j as [|j]; [eexists; split; [vm_compute; reflexivity|discriminate]|lia].
  - vm_compute. reflexivity.
  - reflexivity.
  - reflexivity.
  - reflexivity.
  - lia.
  - split; vm_compute; reflexivity.
Defined.
